(* ===== verification/_CoqProject ===== *)
-Q . S2P
Prelude.v
JsString.v
Types.v
Constants.v
DataUrl.v
Base64.v
Gemini.v
View.v
InputArea.v
Composer.v
App.v
System.v
Screen.v
