(* ===== verification/Prelude.v ===== *)
(** * A verification development of EmpireX, a Socratic math-tutor chat client

    ** The program

    A React front end ([src/]) lets a user chat with a Gemini model about
    mathematics, optionally attaching an image.  Its core:
    - [src/types.ts]: the data model ([Message], [ImageData],
      [UserParams], [HistoryItem]);
    - [src/constants.ts]: the model identifier and the tutoring persona;
    - [src/components/InputArea.tsx]: the composer.  [handleFileChange]
      checks the type, reads the file as a data URL (an [await]) and keeps
      the payload after the first comma; [handleSend] refuses a blank turn
      or a turn while loading, calls [onSend] and clears the composer;
    - [src/services/gemini.ts]: [formatHistory] projects the stored
      messages to the SDK's [Content] shape (text part, then an inline
      part rebuilt from the stored data URL); [generateResponse] appends
      the new user turn (image part, always labelled [image/jpeg], then
      text part), sends one [generateContent] request and returns
      [response.text] or a fixed apology; errors are rethrown;
    - [App.tsx], the controller that owns the message store and the
      loading flag, is not among the sources: it is modelled from the
      specification (section 4.5) and marked as such in the manifest.
    The chat bubbles ([ChatMessage.tsx]), the header ([Header.tsx]) and
    the markup of the input area are modelled as the JSX values they
    return, and the screen [App.tsx] renders as their composition; the
    browser's rendering of that JSX and the markdown parser are not
    modelled.

    ** The library, in dependency order
    - [Prelude] (this file): the [result] type of code that returns or
      throws, with stdpp's monad classes; membership and predicates on
      strings ([str_mem], [str_forall], notation scope [chat_scope]); the
      hint databases [chat] and the tactic [chat_simpl].
    - [JsString] (Module [Js]): the JavaScript string operations the code
      calls: [split] on one character, truthiness, [||] with a default,
      [trim] with ECMAScript's whitespace, [startsWith], and the regular
      expression [/:(.*?);/] as a leftmost search with a lazy group.
    - [Types]: one Module per TypeScript type, fields under the source's
      names; decidable equality instances.
    - [Constants]: [MODEL_ID] and [SYSTEM_INSTRUCTION], verbatim.
    - [DataUrl]: Module [FileReader] models the browser's
      [readAsDataURL] (with a concrete base64 encoder); Module [Codec] the
      code that takes data URLs apart ([convertFileToBase64],
      [image_of_url] of [handleFileChange], [inline_of_image] of
      [formatHistory]).
    - [Base64]: the decoding the receiver of [inlineData] applies
      (modelled from the specification), with the round trip
      [decode (encode l) = Some l] proved bit by bit with [bits].
    - [Gemini]: the request builder and model client.  The SDK client is
      the class [GenAI]; every theorem quantifies over its instances.
    - [View]: [ChatMessage.tsx] and [Header.tsx] as virtual-DOM values
      ([Node]: elements with their classes, attributes, icons, markdown
      sources), with one generic reader [collect] (what a function reads
      off every node, in document order) and its instances for the
      images, icons and markdown of a tree.
    - [InputArea]: the composer as a state machine: [State] holds the
      React state, the file input's value and the reads still pending;
      [step] runs one handler with the [isLoading] prop as input and
      returns the effects ([OnSend], [Alert], [ConsoleError]); [run] runs
      a sequence of events.  The [await] of [handleFileChange] splits it
      into [handleFileChange] (up to the read) and [resume] (after it), so
      that other events interleave, as in the browser.
    - [Composer] (Module [Composer]): the JSX [InputArea.tsx] returns,
      built from its [State] and the [isLoading] prop; event props are
      attributes naming the handler, [disabled] is present exactly when
      true; the reader [controls] lists the wired handlers.
    - [App]: the controller as a state machine ([submit], [settle],
      [step], [reachable]), identifiers from a counter printed with
      [pretty]; the abstract conversation contract ([Conversation],
      [conv_step]) and the abstraction [abstract] for the refinement.
    - [System]: the interface [Submitter] (what a composer promises the
      controller), the composed system generic in it, and the instance
      for the input area.
    - [Screen]: the screen of the running application (modelled from the
      specification): the header, one bubble per stored message, and the
      composer with the controller's [isLoading]; its readers region by
      region.

    ** What is proved
    - Controller (App): the invariant of every reachable state (messages
      non-empty, identifiers distinct, a request in flight exactly while
      loading and for the last, user, message), append-only store, refused
      submissions while busy or blank, the success and failure branches,
      and that the request in flight mirrors the store turn for turn;
      refinement of the abstract conversation contract (every step is a
      stutter or a contract step) and progress (after the call settles,
      the next non-blank turn is accepted).
    - Request builder and client (Gemini): projection of each kind of
      message (text only, image only from a file, both, in order), verbatim
      replay of roles, the new turn's ordering, errors propagated unchanged,
      replies never empty; two findings: the new turn labels every image
      [image/jpeg] while its replay uses the file's type, and an empty
      image file yields a turn with no parts; a stored image
      that is not a data URL is replayed as an [image/jpeg] part with no
      data instead of being rejected.
    - Payload (Base64, supporting lemmas about the browser's encoder and
      the receiver's decoder, both modelled from the specification): the
      payload the composer keeps decodes to exactly the file's bytes, and
      has length [4 * ceil (n / 3)].
    - View: a bubble shows an image exactly when the replay has an inline
      part for it; avatar by role; text rendered verbatim.
    - Codec (DataUrl): round trips from a file through its data URL to
      the [ImageData] of the composer and to the [inlineData] of the
      replay; the base64 alphabet has no comma, so [split(',')] finds the
      payload.
    - Composer (InputArea): its invariant under every event; every
      [onSend] happens while idle with a non-blank turn; while loading, or
      with a whitespace-only text and no image, no send path does
      anything, and only Enter without Shift sends from the keyboard; interleavings: a read settling after a send
      attaches its image to the next message, reads settling out of order
      leave the earlier pick selected, and a rejected file is not
      re-reported; every started read settles, with the final state and
      effects fixed by the outcomes (the pending count is the measure);
      a failed read keeps the composition and is only logged.
    - System: the composed invariant, no submission of the composer is
      ever refused, every stored image is the data URL of a picked
      image file, replayed with its own type, and the composer's send
      guard equals the controller's blank-turn guard.
    - Composer and Screen: the composer's markup wires exactly its
      handlers, and disables the send button exactly when [handleSend]
      would return early; on the running screen the spinner shows
      exactly while a request is in flight, with the composer locked; a
      send shows the typed turn at once and moves the attached image from
      the preview into the new bubble; a reply shows at once as a bot
      bubble that is never blank, and the spinner goes away.
    The controller's own branches ([submit], [settle]) and the generic
    composition ([System] over any [Submitter]) are proved as lemmas that
    the theorems above use; they are facts of the specification's model
    rather than of the code.

    ** Bounds, fuel and what is not modelled
    Every function is structural: no fuel is needed.  Strings are
    [string] of 8-bit characters standing for UTF-16 code units 0..255;
    code units above 255 (for [trim], the non-ASCII spaces) are outside the
    model.  Timestamps are [Z] supplied by the events.  Not modelled: the
    rendering of JSX and markdown, what [console.error] prints, the network (any
    behaviour, through [GenAI]), the API key of [process.env], and the
    timing of the browser beyond the order of events.

    ** Plan for the development's next steps
    Done: the abstract conversation and its refinement, base64 decoding
    and its round trip, the view of [ChatMessage.tsx], [Header.tsx] and
    of the input area, the screen of the running application, the
    rendered message list against the replay, progress of the controller
    and of the composed system, the error paths of a failed read and of
    a malformed stored image.
    Left: strict base64 decoding (padding only at the end) belongs to the
    receiver of the request, outside the repository; [App.tsx]'s own
    markup (classes, scrolling, an error banner) is not in the sources
    and the specification does not describe it, so the screen records
    only the order of its regions. *)

From Stdlib Require Export Ascii String Lia ZArith.
From Stdlib Require Export Strings.Byte.
From stdpp Require Export base list strings option sets.
From Stdlib Require Import Btauto.
From coqutil Require Import Z.bitblast.

(** ** Results: the shape of code that returns or throws *)

(** A computation of the TypeScript code either returns a value ([Ok]) or
    throws ([Err]); the error carries what was thrown.  [async] functions of
    the source are modelled the same way: the promise resolves or rejects. *)
Inductive result (E A : Type) : Type :=
  | Ok (a : A)
  | Err (e : E).
Arguments Ok {E A} a.
Arguments Err {E A} e.

#[export] Instance result_ret E : MRet (result E) := fun _ a => Ok a.
#[export] Instance result_bind E : MBind (result E) :=
  fun _ _ f r => match r with Ok a => f a | Err e => Err e end.
#[export] Instance result_fmap E : FMap (result E) :=
  fun _ _ f r => match r with Ok a => Ok (f a) | Err e => Err e end.

Definition is_ok {E A} (r : result E A) : bool :=
  match r with Ok _ => true | Err _ => false end.

Declare Scope chat_scope.
Delimit Scope chat_scope with chat.

(** [s ∋c c]: the character [c] occurs in [s]. *)
Fixpoint str_mem (c : ascii) (s : string) : bool :=
  match s with
  | EmptyString => false
  | String d s' => Ascii.eqb c d || str_mem c s'
  end.
Notation "s '∋c' c" := (str_mem c s = true) (at level 70) : chat_scope.
Notation "s '∌c' c" := (str_mem c s = false) (at level 70) : chat_scope.
Open Scope chat_scope.

(** Every character of [s] satisfies [p]. *)
Fixpoint str_forall (p : ascii -> bool) (s : string) : bool :=
  match s with
  | EmptyString => true
  | String d s' => p d && str_forall p s'
  end.

(** ** Generic lemmas on strings and results *)

Create HintDb chat discriminated.
Create Rewrite HintDb chat.
#[export] Hint Constants Transparent : chat.

Lemma str_append_cons c (a b : string) : String c a +:+ b = String c (a +:+ b).
Proof. reflexivity. Qed.

Lemma str_append_nil_l (b : string) : EmptyString +:+ b = b.
Proof. reflexivity. Qed.

Lemma str_append_assoc (a b c : string) : (a +:+ b) +:+ c = a +:+ (b +:+ c).
Proof. induction a as [|d a IH]; [reflexivity|]. by rewrite !str_append_cons, IH. Qed.

Lemma str_append_nil_r (a : string) : a +:+ EmptyString = a.
Proof. induction a as [|d a IH]; [reflexivity|]. by rewrite str_append_cons, IH. Qed.

Lemma str_length_append (a b : string) : String.length (a +:+ b) = String.length a + String.length b.
Proof. induction a as [|d a IH]; [reflexivity|]. rewrite str_append_cons. simpl. lia. Qed.

Lemma str_mem_append c (a b : string) : str_mem c (a +:+ b) = str_mem c a || str_mem c b.
Proof. induction a as [|d a IH]; [done|]. rewrite str_append_cons. simpl. rewrite IH. by destruct (Ascii.eqb c d). Qed.

Lemma str_forall_append p (a b : string) :
  str_forall p (a +:+ b) = str_forall p a && str_forall p b.
Proof. induction a as [|d a IH]; [done|]. rewrite str_append_cons. simpl. rewrite IH. by destruct (p d). Qed.

(** A character that no character of [s] equals is not a member of [s]. *)
Lemma str_forall_not_mem c p s :
  p c = false -> str_forall p s = true -> str_mem c s = false.
Proof.
  intros Hc. induction s as [|d s IH]; simpl; [done|].
  intros [Hd Hs]%andb_true_iff. rewrite IH by done.
  destruct (Ascii.eqb_spec c d); subst; [congruence|done].
Qed.

(** The concatenation of a list of lists, one list at a time. *)
Lemma mjoin_cons {A} (x : list A) (l : list (list A)) : mjoin (x :: l) = x ++ mjoin l.
Proof. done. Qed.

(** Concatenating singletons is mapping. *)
Lemma mjoin_fmap_singleton {X A} (f : X -> list A) (g : X -> A) (l : list X) :
  (forall x, f x = [g x]) -> mjoin (f <$> l) = g <$> l.
Proof. intros Hf. induction l as [|x l IH]; [done|]. by rewrite fmap_cons, mjoin_cons, Hf, IH. Qed.

Lemma result_bind_ok {E A B} (a : A) (f : A -> result E B) : (Ok a ≫= f) = f a.
Proof. done. Qed.

Lemma result_bind_err {E A B} (e : E) (f : A -> result E B) : (Err e ≫= f) = Err e.
Proof. done. Qed.

#[export] Hint Rewrite str_append_cons str_append_nil_l str_append_assoc str_append_nil_r str_mem_append str_forall_append
  str_length_append @result_bind_ok @result_bind_err : chat.

(** Unfold a model's definitions, rewrite with the [chat] database and
    close what is left by computation. *)
Ltac chat_simpl := repeat (simpl; autorewrite with chat in *); try done.

(** Bit-level equalities of [Z]: coqutil's [Z.bitblast], then the bits
    below index 0 and the bits of [_ mod 2^k], then boolean tautology. *)
Ltac bits :=
  Z.bitblast; repeat (rewrite Z.testbit_neg_r by lia);
  rewrite ?Z.testbit_mod_pow2 by lia;
  repeat match goal with |- context [Z.ltb ?a ?b] => destruct (Z.ltb_spec a b) end;
  try (exfalso; lia); rewrite ?Z.testbit_neg_r by lia; btauto.
