(* ===== verification/JsString.v ===== *)
(** * The JavaScript string operations the source relies on

    [String.prototype.split] with a one-character separator, [trim],
    [startsWith], truthiness of strings and the regular expression
    [/:(.*?);/] of [src/services/gemini.ts].  A Rocq [ascii] stands for one
    UTF-16 code unit in the range 0..255 (Latin-1): the whitespace and line
    terminators of ECMAScript in that range are listed in [is_js_space]. *)

From S2P Require Import Prelude.

Module Js.

(** [s.split(sep)] for a one-character [sep]: the pieces between the
    occurrences of [sep]; the empty string splits into one empty piece. *)
Fixpoint split (sep : ascii) (s : string) : list string :=
  match s with
  | EmptyString => [EmptyString]
  | String c s' =>
      let parts := split sep s' in
      if Ascii.eqb c sep then EmptyString :: parts
      else match parts with
           | p :: ps => String c p :: ps
           | [] => [String c EmptyString]
           end
  end.

(** [parts.join(sep)]. *)
Fixpoint join (sep : ascii) (parts : list string) : string :=
  match parts with
  | [] => EmptyString
  | [p] => p
  | p :: ps => p +:+ String sep (join sep ps)
  end.

(** A string is truthy exactly when it is not empty. *)
Definition truthy (s : string) : bool :=
  match s with EmptyString => false | String _ _ => true end.

(** [a || b] on strings, with [undefined] as [None]. *)
Definition or_else (o : option string) (d : string) : string :=
  match o with Some g => if truthy g then g else d | None => d end.

(** ECMAScript WhiteSpace and LineTerminator code units in 0..255:
    TAB, LF, VT, FF, CR, SPACE and NO-BREAK SPACE. *)
Definition is_js_space (c : ascii) : bool :=
  match nat_of_ascii c with
  | 9 | 10 | 11 | 12 | 13 | 32 | 160 => true
  | _ => false
  end.

Fixpoint trim_start (s : string) : string :=
  match s with
  | EmptyString => EmptyString
  | String c s' => if is_js_space c then trim_start s' else s
  end.

Fixpoint rev (s : string) : string :=
  match s with
  | EmptyString => EmptyString
  | String c s' => rev s' +:+ String c EmptyString
  end.

(** [s.trim()]. *)
Definition trim (s : string) : string := rev (trim_start (rev (trim_start s))).

(** [s.startsWith(p)]. *)
Fixpoint starts_with (p s : string) : bool :=
  match p, s with
  | EmptyString, _ => true
  | String a p', String b s' => Ascii.eqb a b && starts_with p' s'
  | String _ _, EmptyString => false
  end.

(** The code units the regular-expression atom [.] does not match. *)
Definition is_line_terminator (c : ascii) : bool :=
  Ascii.eqb c "010"%char || Ascii.eqb c "013"%char.

(** The lazy group [(.*?);] anchored at the current position: the text up
    to the first [;], unless a line terminator comes first. *)
Fixpoint lazy_upto_semicolon (s : string) : option string :=
  match s with
  | EmptyString => None
  | String c s' =>
      if Ascii.eqb c ";" then Some EmptyString
      else if is_line_terminator c then None
      else String c <$> lazy_upto_semicolon s'
  end.

(** Group 1 of [s.match(/:(.*?);/)]: the leftmost [:] from which the lazy
    group succeeds. *)
Fixpoint match_colon_semicolon (s : string) : option string :=
  match s with
  | EmptyString => None
  | String c s' =>
      if Ascii.eqb c ":" then
        match lazy_upto_semicolon s' with
        | Some g => Some g
        | None => match_colon_semicolon s'
        end
      else match_colon_semicolon s'
  end.

(** ** Lemmas *)

Lemma split_nonempty sep s : split sep s <> [].
Proof.
  induction s as [|c s IH]; simpl; [done|].
  destruct (Ascii.eqb c sep); [done|]. by destruct (split sep s).
Qed.

(** A string without the separator is one piece. *)
Lemma split_no_sep sep s : str_mem sep s = false -> split sep s = [s].
Proof.
  induction s as [|c s IH]; simpl; [done|].
  intros [Hc Hs]%orb_false_iff. rewrite IH by done.
  rewrite Ascii.eqb_sym, Hc. done.
Qed.

(** The first piece ends at the first separator. *)
Lemma split_app_sep sep a b :
  str_mem sep a = false -> split sep (a +:+ String sep b) = a :: split sep b.
Proof.
  induction a as [|c a IH]; intros Ha.
  - simpl. by rewrite Ascii.eqb_refl.
  - simpl in Ha. apply orb_false_iff in Ha as [Hc Ha].
    rewrite str_append_cons. simpl. rewrite IH by done.
    rewrite Ascii.eqb_sym, Hc. done.
Qed.

Lemma join_cons_char sep c p ps :
  join sep (String c p :: ps) = String c (join sep (p :: ps)).
Proof. by destruct ps. Qed.

(** [s.split(sep).join(sep) === s]. *)
Lemma join_split sep s : join sep (split sep s) = s.
Proof.
  induction s as [|c s IH]; [done|]. cbn [split].
  pose proof (split_nonempty sep s) as Hne.
  destruct (split sep s) as [|p ps]; [done|].
  destruct (Ascii.eqb_spec c sep) as [->|_].
  - by rewrite <- IH.
  - by rewrite join_cons_char, IH.
Qed.

Lemma truthy_app_r a b : truthy b = true -> truthy (a +:+ b) = true.
Proof. destruct a; [done|]. by rewrite str_append_cons. Qed.

Lemma truthy_rev s : truthy (rev s) = truthy s.
Proof. destruct s; simpl; [done|]. by apply truthy_app_r. Qed.

Lemma str_forall_rev p s : str_forall p (rev s) = str_forall p (s).
Proof.
  induction s as [|c s IH]; simpl; [done|].
  rewrite str_forall_append, IH. simpl. by rewrite andb_true_r, andb_comm.
Qed.

Lemma trim_start_forall s :
  str_forall is_js_space (trim_start s) = str_forall is_js_space s.
Proof.
  induction s as [|c s IH]; [done|]. cbn [trim_start str_forall].
  destruct (is_js_space c) eqn:E; [done|]. cbn [str_forall]. by rewrite E.
Qed.

Lemma truthy_trim_start s :
  truthy (trim_start s) = negb (str_forall is_js_space s).
Proof.
  induction s as [|c s IH]; [done|]. cbn [trim_start str_forall].
  by destruct (is_js_space c).
Qed.

Lemma truthy_trim_lemma s : truthy (trim s) = negb (str_forall is_js_space s).
Proof.
  unfold trim. rewrite truthy_rev, truthy_trim_start, str_forall_rev, trim_start_forall. done.
Qed.

(** [!text.trim()] is the test that every code unit of the text is
    ECMAScript whitespace: trimming and testing emptiness agrees with the
    reference predicate. *)
Theorem trim_truthy_iff_not_blank s : truthy (trim s) = negb (str_forall is_js_space s).
Proof. apply truthy_trim_lemma. Qed.

#[export] Hint Rewrite split_app_sep join_cons_char truthy_rev str_forall_rev
  trim_start_forall truthy_trim_start : chat.

Lemma starts_with_app p r : starts_with p (p +:+ r) = true.
Proof.
  induction p as [|c p IH]; [by destruct r|].
  rewrite str_append_cons. simpl. by rewrite Ascii.eqb_refl, IH.
Qed.

(** A character the lazy group [.*?] may consume before the [;]. *)
Definition plain_char (c : ascii) : bool :=
  negb (Ascii.eqb c ";") && negb (is_line_terminator c).

Lemma lazy_upto_semicolon_app m r :
  str_forall plain_char m = true ->
  lazy_upto_semicolon (m +:+ String ";" r) = Some m.
Proof.
  induction m as [|c m IH]; [reflexivity|]. cbn [str_forall].
  unfold plain_char. intros [[Hs Hl]%andb_true_iff Hm]%andb_true_iff.
  rewrite str_append_cons. cbn [lazy_upto_semicolon]. apply negb_true_iff in Hs, Hl.
  by rewrite Hs, Hl, IH.
Qed.

Lemma match_colon_semicolon_app a m r :
  str_mem ":" a = false -> str_forall plain_char m = true ->
  match_colon_semicolon (a +:+ String ":" (m +:+ String ";" r)) = Some m.
Proof.
  intros Ha Hm. induction a as [|c a IH].
  - rewrite str_append_nil_l. cbn [match_colon_semicolon]. by rewrite lazy_upto_semicolon_app.
  - cbn [str_mem] in Ha. apply orb_false_iff in Ha as [Hc Ha].
    rewrite str_append_cons. cbn [match_colon_semicolon]. rewrite Ascii.eqb_sym, Hc. auto.
Qed.

Lemma match_colon_semicolon_none s :
  str_mem ":" s = false -> match_colon_semicolon s = None.
Proof.
  induction s as [|c s IH]; [done|]. cbn [str_mem match_colon_semicolon].
  intros [Hc Hs]%orb_false_iff. rewrite Ascii.eqb_sym, Hc. auto.
Qed.

End Js.
