(* ===== verification/Types.v ===== *)
(** * The data model of [src/types.ts]

    One Module per TypeScript type, so that the fields keep the source's
    names ([Message.text], [ImageData.base64], ...).  Optional fields
    ([image?]) are [option]s.  The request shape is the one the code builds
    with the SDK's [Content] type, which [HistoryItem] documents. *)

From S2P Require Import Prelude.

(** [type Role = 'user' | 'model'] *)
Inductive Role := user | model.

#[export] Instance Role_eq_dec : EqDecision Role.
Proof. solve_decision. Defined.

Definition role_name (r : Role) : string :=
  match r with user => "user" | model => "model" end.

(** [interface Message]: [image] is a data URL for display; [timestamp] is
    a JavaScript number of milliseconds, kept as [Z]. *)
Module Message.
Record t := mk {
  id : string;
  role : Role;
  text : string;
  image : option string;
  timestamp : Z
}.
End Message.

(** [interface ImageData]: the raw base64 payload for the API, the data URL
    for the preview, and the file's MIME type. *)
Module ImageData.
Record t := mk {
  base64 : string;
  preview : string;
  mimeType : string
}.
End ImageData.

(** [interface UserParams]: what the input area hands to the application. *)
Module UserParams.
Record t := mk {
  text : string;
  image : option ImageData.t
}.
End UserParams.

(** [HistoryItem] and its parts: a part carries a [text] or an
    [inlineData] blob.  At run time [data] can be [undefined] (see
    [Gemini.formatHistory]), hence the [option]. *)
Module InlineData.
Record t := mk {
  mimeType : string;
  data : option string
}.
End InlineData.

Module Part.
Record t := mk {
  text : option string;
  inlineData : option InlineData.t
}.
Definition of_text (s : string) : t := mk (Some s) None.
Definition of_inline (m : string) (d : option string) : t :=
  mk None (Some (InlineData.mk m d)).
End Part.

Module HistoryItem.
Record t := mk {
  role : Role;
  parts : list Part.t
}.
End HistoryItem.

(** Decidable equality of the data model. *)
#[export] Instance Message_eq_dec : EqDecision Message.t.
Proof. solve_decision. Defined.
#[export] Instance ImageData_eq_dec : EqDecision ImageData.t.
Proof. solve_decision. Defined.
#[export] Instance UserParams_eq_dec : EqDecision UserParams.t.
Proof. solve_decision. Defined.
#[export] Instance InlineData_eq_dec : EqDecision InlineData.t.
Proof. solve_decision. Defined.
#[export] Instance Part_eq_dec : EqDecision Part.t.
Proof. solve_decision. Defined.
#[export] Instance HistoryItem_eq_dec : EqDecision HistoryItem.t.
Proof. solve_decision. Defined.
