(* ===== verification/DataUrl.v ===== *)
(** * Data URLs: the attachment codec

    [FileReader] models what the browser's [readAsDataURL] produces for a
    picked file: [data:<type>;base64,<payload>] with the standard base64
    alphabet.  [Codec] models the two places of the source that take such a
    URL apart: [handleFileChange] of [src/components/InputArea.tsx], which
    keeps the payload after the first comma for the API, and the first two
    statements of the image branch of [formatHistory] in
    [src/services/gemini.ts], which split the stored URL into a MIME type
    (by the regular expression [/:(.*?);/], falling back to [image/jpeg])
    and a payload ([undefined] when there is no comma). *)

From S2P Require Import Prelude JsString Types.

Module FileReader.

(** A file picked in the browser: its [name], its declared [type] and its
    bytes. *)
Record File := mkFile {
  name : string;
  type : string;
  contents : list byte
}.

Definition b64_table : string :=
  "ABCDEFGHIJKLMNOPQRSTUVWXYZabcdefghijklmnopqrstuvwxyz0123456789+/".

Definition b64_char (n : Z) : ascii :=
  match String.get (Z.to_nat n) b64_table with Some c => c | None => "=" end.

Definition byteZ (b : byte) : Z := Z.of_N (Byte.to_N b).

(** The four sextets of a 24-bit group, most significant first. *)
Definition sextets (n : Z) : list Z :=
  [Z.land (Z.shiftr n 18) 63; Z.land (Z.shiftr n 12) 63;
   Z.land (Z.shiftr n 6) 63; Z.land n 63].

Definition quad (n : Z) (keep : nat) : string :=
  let cs := take keep (b64_char <$> sextets n) in
  string_of_list_ascii (cs ++ replicate (4 - keep) "="%char).

(** Base64 encoding, three bytes to four characters, [=] padding. *)
Fixpoint encode (l : list byte) : string :=
  match l with
  | a :: b :: c :: r =>
      quad (Z.lor (Z.shiftl (byteZ a) 16) (Z.lor (Z.shiftl (byteZ b) 8) (byteZ c))) 4
      +:+ encode r
  | [a; b] => quad (Z.lor (Z.shiftl (byteZ a) 16) (Z.shiftl (byteZ b) 8)) 3
  | [a] => quad (Z.shiftl (byteZ a) 16) 2
  | [] => EmptyString
  end.

(** [reader.readAsDataURL(file)]: a file with no type is labelled
    [application/octet-stream]. *)
Definition readAsDataURL (f : File) : string :=
  let t := if Js.truthy (type f) then type f else "application/octet-stream" in
  "data:" +:+ t +:+ ";base64," +:+ encode (contents f).

(** A data URL is never the empty string. *)
Lemma readAsDataURL_truthy f : Js.truthy (readAsDataURL f) = true.
Proof. reflexivity. Qed.

(** The characters a base64 payload is made of. *)
Definition b64_alphabet : string := b64_table +:+ "=".
Definition in_b64_alphabet (c : ascii) : bool := str_mem c b64_alphabet.

(** The outcome of a read: [onload] or [onerror]. *)
Inductive ReadOutcome := Loaded | ReadError.

(** ** The base64 alphabet *)

Lemma get_str_mem i s c : String.get i s = Some c -> str_mem c s = true.
Proof.
  revert i. induction s as [|d s IH]; intros [|i]; simpl; try done.
  - intros [= ->]. by rewrite Ascii.eqb_refl.
  - intros H. rewrite (IH i H). by rewrite orb_true_r.
Qed.

Lemma b64_char_alphabet n : in_b64_alphabet (b64_char n) = true.
Proof.
  unfold in_b64_alphabet, b64_alphabet, b64_char. rewrite str_mem_append.
  destruct (String.get _ b64_table) eqn:E.
  - by rewrite (get_str_mem _ _ _ E).
  - by rewrite orb_true_r.
Qed.

Lemma str_forall_of_list p (l : list ascii) :
  str_forall p (string_of_list_ascii l) = true <-> Forall (fun c => p c = true) l.
Proof.
  induction l as [|c l IH]; cbn [string_of_list_ascii str_forall]; [split; auto|].
  rewrite andb_true_iff, IH, Forall_cons_iff. done.
Qed.

Lemma quad_alphabet n k : str_forall in_b64_alphabet (quad n k) = true.
Proof.
  unfold quad. apply str_forall_of_list, Forall_app. split.
  - apply Forall_take, Forall_fmap, Forall_true. intros x. apply b64_char_alphabet.
  - apply Forall_replicate. done.
Qed.

(** Every character [encode] produces is in the base64 alphabet. *)
Lemma encode_alphabet l : str_forall in_b64_alphabet (encode l) = true.
Proof.
  revert l. fix IH 1. intros [|a [|b [|c r]]]; try apply quad_alphabet; [done|].
  cbn [encode]. rewrite str_forall_append, quad_alphabet. apply IH.
Qed.

Lemma encode_no_comma l : str_mem "," (encode l) = false.
Proof. apply (str_forall_not_mem _ in_b64_alphabet); [done | apply encode_alphabet]. Qed.

End FileReader.

Module Codec.
Import FileReader.

(** [convertFileToBase64]: the promise resolves with the data URL or
    rejects with the reader's error. *)
Definition convertFileToBase64 (f : File) (o : ReadOutcome) : result unit string :=
  match o with
  | Loaded => Ok (readAsDataURL f)
  | ReadError => Err tt
  end.

(** [base64.split(',')[1]]: [undefined] when there is no comma.  The only
    use of the value downstream is the truthiness test of
    [generateResponse], for which [undefined] and the empty string agree, so
    [undefined] is kept as the empty string in [ImageData.base64]. *)
Definition apiData (url : string) : string :=
  default EmptyString (Js.split "," url !! 1%nat).

(** The [ImageData] that [handleFileChange] stores for a loaded file. *)
Definition image_of_url (f : File) (url : string) : ImageData.t :=
  ImageData.mk (apiData url) url (type f).

(** [const [header, base64Data] = msg.image.split(',')]. *)
Definition split_data_url (img : string) : string * option string :=
  match Js.split "," img with
  | header :: rest => (header, rest !! 0%nat)
  | [] => (EmptyString, None)
  end.

(** [header.match(/:(.*?);/)?.[1] || 'image/jpeg']. *)
Definition mime_of_header (header : string) : string :=
  Js.or_else (Js.match_colon_semicolon header) "image/jpeg".

(** The [inlineData] that [formatHistory] builds for a stored image. *)
Definition inline_of_image (img : string) : InlineData.t :=
  let '(header, base64Data) := split_data_url img in
  InlineData.mk (mime_of_header header) base64Data.

(** A MIME type the data URL can carry through [split(',')] and the
    regular expression: non-empty, without [,], [;] or line terminators.
    Every type a browser reports for an image file ([image/png],
    [image/jpeg], [image/svg+xml], ...) is one. *)
Definition plain_type (t : string) : bool :=
  Js.truthy t && str_forall (fun c => Js.plain_char c && negb (Ascii.eqb c ",")) t.

Lemma plain_type_no_comma t : plain_type t = true -> str_mem "," t = false.
Proof.
  intros [_ H]%andb_true_iff. eapply str_forall_not_mem; [|exact H].
  reflexivity.
Qed.

Lemma plain_type_plain t : plain_type t = true -> str_forall Js.plain_char t = true.
Proof.
  intros [_ H]%andb_true_iff. induction t as [|c t IH]; [done|].
  cbn [str_forall] in *. apply andb_true_iff in H as [[Hc _]%andb_true_iff Ht].
  by rewrite Hc, IH.
Qed.

(** The label [readAsDataURL] writes: the file's type, or the default. *)
Definition url_type (f : File) : string :=
  if Js.truthy (type f) then type f else "application/octet-stream".

Lemma readAsDataURL_eq f :
  readAsDataURL f = ("data:" +:+ url_type f +:+ ";base64") +:+ String "," (encode (contents f)).
Proof. unfold readAsDataURL, url_type. by rewrite !str_append_assoc. Qed.

Lemma url_type_no_comma f : str_mem "," (type f) = false -> str_mem "," (url_type f) = false.
Proof. unfold url_type. by destruct (Js.truthy (type f)). Qed.

(** A data URL whose label has no comma splits into its header and its
    payload. *)
Lemma split_readAsDataURL f :
  str_mem "," (type f) = false ->
  Js.split "," (readAsDataURL f) = ["data:" +:+ url_type f +:+ ";base64"; encode (contents f)].
Proof.
  intros Ht. rewrite readAsDataURL_eq, Js.split_app_sep.
  - by rewrite Js.split_no_sep by apply encode_no_comma.
  - rewrite !str_mem_append, url_type_no_comma by done. done.
Qed.

Lemma url_type_truthy f : Js.truthy (type f) = true -> url_type f = type f.
Proof. unfold url_type. by intros ->. Qed.

(** The header of a data URL names its label. *)
Lemma mime_of_data_header t :
  plain_type t = true -> mime_of_header ("data:" +:+ t +:+ ";base64") = t.
Proof.
  intros Ht. unfold mime_of_header.
  change ("data:" +:+ t +:+ ";base64") with ("data" +:+ String ":" (t +:+ String ";" "base64")).
  rewrite Js.match_colon_semicolon_app by (done || by apply plain_type_plain).
  apply andb_true_iff in Ht as [Ht _]. simpl. by rewrite Ht.
Qed.

Lemma image_of_data_url f :
  str_mem "," (type f) = false ->
  image_of_url f (readAsDataURL f) =
  ImageData.mk (encode (contents f)) (readAsDataURL f) (type f).
Proof. intros Ht. unfold image_of_url, apiData. by rewrite split_readAsDataURL. Qed.

Lemma inline_of_data_url f :
  plain_type (type f) = true ->
  inline_of_image (readAsDataURL f) =
  InlineData.mk (type f) (Some (encode (contents f))).
Proof.
  intros Ht. unfold inline_of_image, split_data_url.
  rewrite split_readAsDataURL by by apply plain_type_no_comma.
  simpl. rewrite url_type_truthy by (apply andb_true_iff in Ht; tauto).
  by rewrite mime_of_data_header.
Qed.

(** A PNG file of four bytes, used by the witnesses below. *)
Definition png_file : File := mkFile "a.png" "image/png" [Byte.x61; Byte.x62; Byte.x63; Byte.x64].

(** C15: [handleFileChange] keeps exactly the base64 payload of the file
    for the API, the whole data URL for the preview and the file's type,
    for every file whose type has no comma. *)
Theorem image_of_url_readAsDataURL f :
  str_mem "," (type f) = false ->
  image_of_url f (readAsDataURL f) =
  ImageData.mk (encode (contents f)) (readAsDataURL f) (type f).
Proof. apply image_of_data_url. Qed.

Lemma image_of_url_readAsDataURL_witness :
  str_mem "," (type png_file) = false /\
  image_of_url png_file (readAsDataURL png_file) =
  ImageData.mk (encode (contents png_file)) (readAsDataURL png_file) (type png_file).
Proof. split; [reflexivity | apply image_of_url_readAsDataURL; reflexivity]. Defined.

(** C6: Round trip: the [inlineData] that [formatHistory] rebuilds from
    the stored preview of a picked file carries the file's own type and
    its base64 payload, for every file of plain type. *)
Theorem inline_of_image_readAsDataURL f :
  plain_type (type f) = true ->
  inline_of_image (readAsDataURL f) =
  InlineData.mk (type f) (Some (encode (contents f))).
Proof. apply inline_of_data_url. Qed.

Lemma inline_of_image_readAsDataURL_witness :
  plain_type (type png_file) = true /\
  inline_of_image (readAsDataURL png_file) =
  InlineData.mk (type png_file) (Some (encode (contents png_file))).
Proof. split; [reflexivity | apply inline_of_image_readAsDataURL; reflexivity]. Defined.

End Codec.
