(* ===== verification/Base64.v ===== *)
(** * Base64 decoding: what the receiver of [inlineData] does

    The payload [handleFileChange] keeps and [generateResponse] sends is
    the base64 text of the file.  The receiver decodes it back to bytes;
    [decode] models that decoding (RFC 4648, with [=] padding), and the
    round trip [decode (encode l) = Some l] shows that the payload carries
    the file's bytes exactly.  The bit-level facts about one 24-bit group
    are proved with [bits]. *)

From S2P Require Import Prelude Types DataUrl.

Module Base64.
Import FileReader.

(** The position of a character in the base64 table. *)
Fixpoint index_of (c : ascii) (s : string) : option nat :=
  match s with
  | EmptyString => None
  | String d s' => if Ascii.eqb c d then Some 0 else S <$> index_of c s'
  end.

Definition sextet_of (c : ascii) : option Z := Z.of_nat <$> index_of c b64_table.

Definition byte_of_Z (z : Z) : byte := default Byte.x00 (Byte.of_N (Z.to_N z)).

(** The three bytes of a 24-bit group. *)
Definition group_bytes (n : Z) : list byte :=
  [byte_of_Z (Z.land (Z.shiftr n 16) 255); byte_of_Z (Z.land (Z.shiftr n 8) 255);
   byte_of_Z (Z.land n 255)].

Definition join_sextets (i0 i1 i2 i3 : Z) : Z :=
  Z.lor (Z.shiftl i0 18) (Z.lor (Z.shiftl i1 12) (Z.lor (Z.shiftl i2 6) i3)).

(** Four characters: [xx==] is one byte, [xxx=] two, [xxxx] three. *)
Definition decode_quad (c0 c1 c2 c3 : ascii) : option (list byte) :=
  i0 ← sextet_of c0; i1 ← sextet_of c1;
  if Ascii.eqb c2 "=" then
    if Ascii.eqb c3 "=" then Some (take 1 (group_bytes (join_sextets i0 i1 0 0))) else None
  else
    i2 ← sextet_of c2;
    if Ascii.eqb c3 "=" then Some (take 2 (group_bytes (join_sextets i0 i1 i2 0)))
    else i3 ← sextet_of c3; Some (group_bytes (join_sextets i0 i1 i2 i3)).

Fixpoint decode (s : string) : option (list byte) :=
  match s with
  | EmptyString => Some []
  | String c0 (String c1 (String c2 (String c3 rest))) =>
      bs ← decode_quad c0 c1 c2 c3; rest' ← decode rest; Some (bs ++ rest')
  | _ => None
  end.

Local Open Scope Z_scope.

(** ** One 24-bit group, at the level of bits *)

Definition sx (n : Z) (k : Z) : Z := Z.land (Z.shiftr n k) 63.

Lemma sextets_eq n : sextets n = [sx n 18; sx n 12; sx n 6; Z.land n 63].
Proof. done. Qed.

(** The four sextets of a 24-bit group put back together give the group. *)
Lemma join_sextets_sx m :
  let n := m mod 2^24 in join_sextets (sx n 18) (sx n 12) (sx n 6) (Z.land n 63) = n.
Proof. intros n. subst n. unfold join_sextets, sx. change 63 with (Z.ones 6). bits. Qed.

(** Three bytes make a 24-bit group, and each can be read back. *)
Definition group3 (a b c : Z) : Z := Z.lor (Z.shiftl a 16) (Z.lor (Z.shiftl b 8) c).

Lemma group3_bits x y z :
  let a := x mod 2^8 in let b := y mod 2^8 in let c := z mod 2^8 in
  group3 a b c mod 2^24 = group3 a b c /\
  Z.land (Z.shiftr (group3 a b c) 16) 255 = a /\
  Z.land (Z.shiftr (group3 a b c) 8) 255 = b /\ Z.land (group3 a b c) 255 = c.
Proof.
  intros a b c. subst a b c. unfold group3. change 255 with (Z.ones 8).
  split_and!; bits.
Qed.

(** The padding sextets of a shorter group are zero. *)
Lemma group3_low_zero x y :
  Z.land (group3 (x mod 2^8) (y mod 2^8) 0) 63 = 0 /\
  sx (group3 (x mod 2^8) 0 0) 6 = 0 /\ Z.land (group3 (x mod 2^8) 0 0) 63 = 0.
Proof. unfold group3, sx. change 63 with (Z.ones 6). split_and!; bits. Qed.

(** ** Characters and bytes *)

Lemma sextet_of_b64_char k : 0 <= k < 64 -> sextet_of (b64_char k) = Some k.
Proof.
  intros Hk. assert (exists j, k = Z.of_nat j /\ (j < 64)%nat) as (j & -> & Hj)
    by (exists (Z.to_nat k); lia).
  do 64 (destruct j as [|j]; [reflexivity|]). lia.
Qed.

Lemma b64_char_not_pad k : 0 <= k < 64 -> Ascii.eqb (b64_char k) "=" = false.
Proof.
  intros Hk. destruct (Ascii.eqb_spec (b64_char k) "=") as [E|]; [|done].
  pose proof (sextet_of_b64_char k Hk) as H. rewrite E in H. discriminate.
Qed.

Lemma land63_range n : 0 <= Z.land n 63 < 64.
Proof. change 63 with (Z.ones 6). rewrite Z.land_ones by lia. apply Z.mod_pos_bound. lia. Qed.

Lemma sx_range n k : 0 <= sx n k < 64.
Proof. apply land63_range. Qed.

Lemma byteZ_mod b : byteZ b mod 2^8 = byteZ b.
Proof.
  apply Z.mod_small. unfold byteZ. pose proof (Byte.to_N_bounded b). lia.
Qed.

Lemma byte_of_Z_byteZ b : byte_of_Z (byteZ b) = b.
Proof. unfold byte_of_Z, byteZ. by rewrite N2Z.id, Byte.of_to_N. Qed.

#[export] Hint Rewrite sextet_of_b64_char b64_char_not_pad using (apply sx_range || apply land63_range) : chat.

(** A group whose padded sextets are zero decodes as the full group. *)
Lemma group_bytes_group3 a b c :
  group_bytes (group3 (byteZ a) (byteZ b) (byteZ c)) = [a; b; c].
Proof.
  destruct (group3_bits (byteZ a) (byteZ b) (byteZ c)) as (_ & Ha & Hb & Hc).
  rewrite !byteZ_mod in Ha, Hb, Hc. unfold group_bytes.
  by rewrite Ha, Hb, Hc, !byte_of_Z_byteZ.
Qed.

Lemma join_group3 a b c :
  let n := group3 (byteZ a) (byteZ b) (byteZ c) in
  join_sextets (sx n 18) (sx n 12) (sx n 6) (Z.land n 63) = n.
Proof.
  intros n. destruct (group3_bits (byteZ a) (byteZ b) (byteZ c)) as (Hm & _).
  rewrite !byteZ_mod in Hm. subst n. rewrite <- Hm at 1 2 3 4. rewrite join_sextets_sx. exact Hm.
Qed.

Definition zero_byte : byte := Byte.x00.

Lemma byteZ_zero : byteZ zero_byte = 0.
Proof. done. Qed.

Lemma decode_quad_group a b c :
  let n := group3 (byteZ a) (byteZ b) (byteZ c) in
  decode_quad (b64_char (sx n 18)) (b64_char (sx n 12)) (b64_char (sx n 6)) (b64_char (Z.land n 63)) =
  Some [a; b; c].
Proof.
  intros n. unfold decode_quad. autorewrite with chat. cbn [mbind option_bind]. subst n.
  rewrite join_group3. f_equal. apply group_bytes_group3.
Qed.

Lemma group3_two a b :
  Z.lor (Z.shiftl (byteZ a) 16) (Z.shiftl (byteZ b) 8) = group3 (byteZ a) (byteZ b) 0.
Proof. unfold group3. by rewrite Z.lor_0_r. Qed.

Lemma group3_one a : Z.shiftl (byteZ a) 16 = group3 (byteZ a) 0 0.
Proof. unfold group3. simpl. by rewrite Z.lor_0_r. Qed.

Lemma decode_quad_two a b :
  let n := Z.lor (Z.shiftl (byteZ a) 16) (Z.shiftl (byteZ b) 8) in
  decode_quad (b64_char (sx n 18)) (b64_char (sx n 12)) (b64_char (sx n 6)) "=" = Some [a; b].
Proof.
  intros n. unfold decode_quad. autorewrite with chat. cbn [mbind option_bind]. subst n.
  rewrite group3_two. destruct (group3_low_zero (byteZ a) (byteZ b)) as (H0 & _ & _).
  rewrite !byteZ_mod in H0.
  pose proof (join_group3 a b zero_byte) as E. cbv zeta in E. rewrite byteZ_zero, H0 in E.
  rewrite E. exact (f_equal (fun l => Some (take 2 l)) (group_bytes_group3 a b zero_byte)).
Qed.

Lemma decode_quad_one a :
  let n := Z.shiftl (byteZ a) 16 in
  decode_quad (b64_char (sx n 18)) (b64_char (sx n 12)) "=" "=" = Some [a].
Proof.
  intros n. unfold decode_quad. autorewrite with chat. cbn [mbind option_bind]. subst n.
  rewrite group3_one. destruct (group3_low_zero (byteZ a) 0) as (_ & H1 & H2).
  rewrite byteZ_mod in H1, H2.
  pose proof (join_group3 a zero_byte zero_byte) as E. cbv zeta in E.
  rewrite byteZ_zero, H1, H2 in E.
  rewrite E. exact (f_equal (fun l => Some (take 1 l)) (group_bytes_group3 a zero_byte zero_byte)).
Qed.

(** ** The round trip *)

Lemma quad_4 n : quad n 4 = String (b64_char (sx n 18)) (String (b64_char (sx n 12))
  (String (b64_char (sx n 6)) (String (b64_char (Z.land n 63)) EmptyString))).
Proof. done. Qed.

Lemma quad_3 n : quad n 3 = String (b64_char (sx n 18)) (String (b64_char (sx n 12))
  (String (b64_char (sx n 6)) (String "=" EmptyString))).
Proof. done. Qed.

Lemma quad_2 n : quad n 2 = String (b64_char (sx n 18)) (String (b64_char (sx n 12))
  (String "=" (String "=" EmptyString))).
Proof. done. Qed.

Lemma decode_cons4 c0 c1 c2 c3 rest :
  decode (String c0 (String c1 (String c2 (String c3 rest)))) =
  bs ← decode_quad c0 c1 c2 c3; rest' ← decode rest; Some (bs ++ rest').
Proof. done. Qed.

Lemma decode_encode_lemma l : decode (encode l) = Some l.
Proof.
  revert l. fix IH 1. intros [|a [|b [|c r]]]; cbn [encode].
  - done.
  - rewrite quad_2, decode_cons4, decode_quad_one. done.
  - rewrite quad_3, decode_cons4, decode_quad_two. done.
  - rewrite quad_4, str_append_cons, !str_append_cons, str_append_nil_l, decode_cons4.
    change (Z.lor (Z.shiftl (byteZ a) 16) (Z.lor (Z.shiftl (byteZ b) 8) (byteZ c)))
      with (group3 (byteZ a) (byteZ b) (byteZ c)).
    rewrite decode_quad_group, IH. done.
Qed.

Lemma length_string_of_list_ascii (l : list ascii) :
  String.length (string_of_list_ascii l) = length l.
Proof. induction l; simpl; congruence. Qed.

Lemma length_quad n k : (k <= 4)%nat -> String.length (quad n k) = 4%nat.
Proof.
  intros Hk. unfold quad. rewrite length_string_of_list_ascii, length_app, length_take,
    length_fmap, length_replicate. simpl. lia.
Qed.

Lemma length_encode_lemma l : String.length (encode l) = (4 * ((length l + 2) / 3))%nat.
Proof.
  revert l. fix IH 1. intros [|a [|b [|c r]]]; cbn [encode]; try (rewrite length_quad; [done|lia]).
  - done.
  - rewrite str_length_append, length_quad, IH by lia. simpl length.
    replace (S (S (S (length r))) + 2)%nat with (length r + 2 + 1 * 3)%nat by lia.
    rewrite Nat.div_add by lia. lia.
Qed.

(** Round trip: the payload [handleFileChange] keeps for the API is
    the base64 text of exactly the picked file's bytes: decoding it gives
    them back. *)
Theorem payload_decodes_to_file f :
  str_mem "," (type f) = false ->
  decode (ImageData.base64 (Codec.image_of_url f (readAsDataURL f))) = Some (contents f).
Proof. intros Ht. rewrite Codec.image_of_data_url by done. apply decode_encode_lemma. Qed.

Lemma payload_decodes_to_file_witness :
  str_mem "," (type Codec.png_file) = false /\
  decode (ImageData.base64 (Codec.image_of_url Codec.png_file (readAsDataURL Codec.png_file))) =
  Some (contents Codec.png_file).
Proof. split; [reflexivity | apply payload_decodes_to_file; reflexivity]. Defined.

(** The payload [handleFileChange] keeps is four characters for
    every started group of three bytes of the file: its length is
    [4 * ceil (n / 3)] for a file of [n] bytes. *)
Theorem payload_length f :
  str_mem "," (type f) = false ->
  String.length (ImageData.base64 (Codec.image_of_url f (readAsDataURL f))) =
  (4 * ((length (contents f) + 2) / 3))%nat.
Proof. intros Ht. rewrite Codec.image_of_data_url by done. apply length_encode_lemma. Qed.

Lemma payload_length_witness :
  str_mem "," (type Codec.png_file) = false /\
  String.length (ImageData.base64 (Codec.image_of_url Codec.png_file (readAsDataURL Codec.png_file))) = 8%nat.
Proof. split; [reflexivity | apply (payload_length Codec.png_file); reflexivity]. Defined.

End Base64.
