(* ===== verification/Gemini.v ===== *)
(** * The model client of [src/services/gemini.ts]

    [formatHistory] projects the stored messages to the SDK's [Content]
    shape; [generateResponse] appends the new user turn, sends one
    [generateContent] request with the fixed configuration and turns the
    response into the reply text.  The SDK client is the interface [GenAI]:
    a function from the request to the response or the thrown error, so
    every theorem about [generateResponse] holds for every behaviour of the
    network, a deterministic stub included. *)

From S2P Require Import Prelude JsString Types Constants DataUrl.

Module Gemini.

(** ** The SDK's request and response *)

Record ThinkingConfig := mkThinkingConfig { thinkingBudget : Z }.

(** [maxOutputTokens] is [None]: the code deliberately leaves it unset. *)
Record GenerateContentConfig := mkConfig {
  systemInstruction : string;
  thinkingConfig : ThinkingConfig;
  maxOutputTokens : option Z
}.

Record GenerateContentParameters := mkParams {
  model : string;
  contents : list HistoryItem.t;
  config : GenerateContentConfig
}.

(** [response.text]: [undefined] when the response has no text. *)
Record GenerateContentResponse := mkResponse { text : option string }.

(** What the SDK may throw: transport, authentication, quota and malformed
    responses, or anything else. *)
Inductive ApiError :=
  | NetworkError | AuthError | QuotaError | MalformedResponse
  | OtherError (msg : string).

(** [ai.models.generateContent]: the one I/O boundary of the core. *)
Class GenAI := generateContent : GenerateContentParameters -> result ApiError GenerateContentResponse.

(** ** [formatHistory] *)

(** The body of the arrow function mapped over the history: a text part
    when [msg.text] is truthy, then an [inlineData] part when [msg.image]
    is truthy. *)
Definition formatMessage (msg : Message.t) : HistoryItem.t :=
  let parts :=
    (if Js.truthy (Message.text msg) then [Part.of_text (Message.text msg)] else []) ++
    match Message.image msg with
    | Some img =>
        if Js.truthy img then
          let d := Codec.inline_of_image img in
          [Part.of_inline (InlineData.mimeType d) (InlineData.data d)]
        else []
    | None => []
    end in
  HistoryItem.mk (Message.role msg) parts.

Definition formatHistory (messages : list Message.t) : list HistoryItem.t :=
  formatMessage <$> messages.

(** ** [generateResponse] *)

(** The parts of the new turn: the image first, always labelled
    [image/jpeg], then the text; each only when truthy. *)
Definition newParts (newText : string) (newImageBase64 : option string) : list Part.t :=
  (match newImageBase64 with
   | Some b => if Js.truthy b then [Part.of_inline "image/jpeg" (Some b)] else []
   | None => []
   end) ++
  (if Js.truthy newText then [Part.of_text newText] else []).

Definition newContent (newText : string) (newImageBase64 : option string) : HistoryItem.t :=
  HistoryItem.mk user (newParts newText newImageBase64).

Definition fullContents (currentHistory : list Message.t) (newText : string)
    (newImageBase64 : option string) : list HistoryItem.t :=
  formatHistory currentHistory ++ [newContent newText newImageBase64].

Definition THINKING_BUDGET : Z := 32768.

(** The argument of [ai.models.generateContent]. *)
Definition request (currentHistory : list Message.t) (newText : string)
    (newImageBase64 : option string) : GenerateContentParameters :=
  mkParams MODEL_ID (fullContents currentHistory newText newImageBase64)
    (mkConfig SYSTEM_INSTRUCTION (mkThinkingConfig THINKING_BUDGET) None).

Definition FALLBACK_REPLY : string :=
  "I'm sorry, I couldn't generate a response. Please try again.".

(** [response.text || FALLBACK_REPLY]. *)
Definition replyText (r : GenerateContentResponse) : string :=
  Js.or_else (text r) FALLBACK_REPLY.

(** The whole [async] function: the [catch] logs and rethrows the error
    unchanged, so a rejected call rejects the promise with the same
    error. *)
Definition generateResponse `{GenAI} (currentHistory : list Message.t) (newText : string)
    (newImageBase64 : option string) : result ApiError string :=
  match generateContent (request currentHistory newText newImageBase64) with
  | Ok response => Ok (replyText response)
  | Err error => Err error
  end.

(** ** Lemmas *)

Lemma encode_truthy l : l <> [] -> Js.truthy (FileReader.encode l) = true.
Proof. destruct l as [|a [|b [|c r]]]; done. Qed.

Lemma formatHistory_app ms1 ms2 :
  formatHistory (ms1 ++ ms2) = formatHistory ms1 ++ formatHistory ms2.
Proof. apply fmap_app. Qed.

Lemma formatMessage_role m : HistoryItem.role (formatMessage m) = Message.role m.
Proof. done. Qed.

#[export] Hint Rewrite formatHistory_app formatMessage_role : chat.

Lemma request_role_seq h t img :
  HistoryItem.role <$> contents (request h t img) = (Message.role <$> h) ++ [user].
Proof.
  unfold request, fullContents, formatHistory. simpl.
  rewrite fmap_app, <- list_fmap_compose. done.
Qed.

Lemma formatMessage_file_parts i r ts f :
  Codec.plain_type (FileReader.type f) = true ->
  formatMessage (Message.mk i r EmptyString (Some (FileReader.readAsDataURL f)) ts) =
  HistoryItem.mk r [Part.of_inline (FileReader.type f) (Some (FileReader.encode (FileReader.contents f)))].
Proof.
  intros Ht. unfold formatMessage. cbn [Message.text Message.image Message.role].
  rewrite Codec.inline_of_data_url by done. reflexivity.
Qed.

(** ** Theorems *)

(** C2: The request replays the history verbatim: one turn per stored
    message, with its role, in order, followed by exactly one [user]
    turn for the new message. *)
Theorem request_roles h t img :
  HistoryItem.role <$> contents (request h t img) = (Message.role <$> h) ++ [user].
Proof. apply request_role_seq. Qed.

(** A message with truthy text and no image is projected to one turn
    with its role and exactly one part, a text part equal to its text. *)
Theorem formatMessage_text_only i r t ts :
  Js.truthy t = true ->
  formatMessage (Message.mk i r t None ts) = HistoryItem.mk r [Part.of_text t].
Proof. intros Ht. unfold formatMessage. simpl. by rewrite Ht. Qed.

Lemma formatMessage_text_only_witness :
  Js.truthy "What is the derivative of x^2?" = true /\
  formatMessage (Message.mk "1" user "What is the derivative of x^2?" None 0) =
  HistoryItem.mk user [Part.of_text "What is the derivative of x^2?"].
Proof. split; [reflexivity | apply formatMessage_text_only; reflexivity]. Defined.

(** C5: A stored message with both text and image is projected with the
    text part first and the inline part second. *)
Theorem formatMessage_text_then_image i r t img ts :
  Js.truthy t = true -> Js.truthy img = true ->
  HistoryItem.parts (formatMessage (Message.mk i r t (Some img) ts)) =
  [Part.of_text t; Part.of_inline (InlineData.mimeType (Codec.inline_of_image img))
                                  (InlineData.data (Codec.inline_of_image img))].
Proof. intros Ht Hi. unfold formatMessage. simpl. by rewrite Ht, Hi. Qed.

Lemma formatMessage_text_then_image_witness :
  Js.truthy "solve it" = true /\ Js.truthy "data:image/png;base64,QQ==" = true /\
  HistoryItem.parts (formatMessage (Message.mk "1" user "solve it" (Some "data:image/png;base64,QQ==") 0)) =
  [Part.of_text "solve it"; Part.of_inline "image/png" (Some "QQ==")].
Proof. split_and!; [reflexivity | reflexivity | apply formatMessage_text_then_image; reflexivity]. Defined.

(** C13: The new turn puts the image before the text, and labels the
    image [image/jpeg] whatever the file's type. *)
Theorem newParts_image_then_text t b :
  Js.truthy t = true -> Js.truthy b = true ->
  newParts t (Some b) = [Part.of_inline "image/jpeg" (Some b); Part.of_text t].
Proof. intros Ht Hb. unfold newParts. by rewrite Ht, Hb. Qed.

Lemma newParts_image_then_text_witness :
  Js.truthy "why?" = true /\ Js.truthy "QQ==" = true /\
  newParts "why?" (Some "QQ==") = [Part.of_inline "image/jpeg" (Some "QQ=="); Part.of_text "why?"].
Proof. split_and!; [reflexivity | reflexivity | apply newParts_image_then_text; reflexivity]. Defined.

(** C16: The first request labels a picked file's payload [image/jpeg],
    while every later request, replaying the stored preview, labels the
    same payload with the file's own type: for a PNG the two disagree. *)
Theorem attachment_label_diverges f i r ts :
  FileReader.contents f <> [] -> Codec.plain_type (FileReader.type f) = true ->
  let d := Codec.image_of_url f (FileReader.readAsDataURL f) in
  let p := FileReader.encode (FileReader.contents f) in
  newParts EmptyString (Some (ImageData.base64 d)) = [Part.of_inline "image/jpeg" (Some p)] /\
  HistoryItem.parts (formatMessage (Message.mk i r EmptyString (Some (ImageData.preview d)) ts)) =
    [Part.of_inline (FileReader.type f) (Some p)].
Proof.
  intros Hc Ht d p. subst d p.
  rewrite Codec.image_of_data_url by by apply Codec.plain_type_no_comma.
  split; cbn [ImageData.base64 ImageData.preview].
  - unfold newParts. by rewrite encode_truthy.
  - by rewrite formatMessage_file_parts.
Qed.

Lemma attachment_label_diverges_witness :
  FileReader.contents Codec.png_file <> [] /\ Codec.plain_type (FileReader.type Codec.png_file) = true /\
  newParts EmptyString (Some "YWJjZA==") = [Part.of_inline "image/jpeg" (Some "YWJjZA==")] /\
  HistoryItem.parts (formatMessage (Message.mk "1" user EmptyString
                       (Some "data:image/png;base64,YWJjZA==") 0)) =
    [Part.of_inline "image/png" (Some "YWJjZA==")].
Proof.
  assert (FileReader.contents Codec.png_file <> []) as Hc by done.
  split_and!; [exact Hc | reflexivity |
    exact (proj1 (attachment_label_diverges Codec.png_file "1" user 0 Hc eq_refl)) |
    exact (proj2 (attachment_label_diverges Codec.png_file "1" user 0 Hc eq_refl))].
Defined.

(** C17: An empty image file with no text yields a new turn with no parts:
    its base64 payload is the empty string, which the truthiness test of
    [generateResponse] drops, although the input area sends it as an
    attached image. *)
Theorem empty_file_empty_turn f :
  FileReader.contents f = [] -> str_mem "," (FileReader.type f) = false ->
  newParts EmptyString
    (Some (ImageData.base64 (Codec.image_of_url f (FileReader.readAsDataURL f)))) = [].
Proof.
  intros Hc Ht. rewrite Codec.image_of_data_url by done.
  simpl. by rewrite Hc.
Qed.

Lemma empty_file_empty_turn_witness :
  FileReader.contents (FileReader.mkFile "e.png" "image/png" []) = [] /\
  str_mem "," (FileReader.type (FileReader.mkFile "e.png" "image/png" [])) = false /\
  newParts EmptyString (Some (ImageData.base64 (Codec.image_of_url (FileReader.mkFile "e.png" "image/png" [])
     (FileReader.readAsDataURL (FileReader.mkFile "e.png" "image/png" []))))) = [].
Proof. split_and!; [reflexivity | reflexivity | apply empty_file_empty_turn; reflexivity]. Defined.

(** C27: A stored image that is not a data URL (no comma, no [:]) is not
    rejected: [formatHistory] replays it as an inline part labelled
    [image/jpeg] with no data, after the text part when the text is
    truthy, and the request is sent with it; no [MalformedAttachment]
    error exists. *)
Theorem malformed_image_replayed i r t img ts :
  Js.truthy img = true -> str_mem "," img = false -> str_mem ":" img = false ->
  HistoryItem.parts (formatMessage (Message.mk i r t (Some img) ts)) =
  (if Js.truthy t then [Part.of_text t] else []) ++ [Part.of_inline "image/jpeg" None].
Proof.
  intros Hi Hc Hm. unfold formatMessage, Codec.inline_of_image, Codec.split_data_url, Codec.mime_of_header.
  cbn [Message.text Message.image HistoryItem.parts].
  rewrite Hi, Js.split_no_sep, Js.match_colon_semicolon_none by done. reflexivity.
Qed.

Lemma malformed_image_replayed_witness :
  Js.truthy "QQ==" = true /\ str_mem "," "QQ==" = false /\ str_mem ":" "QQ==" = false /\
  HistoryItem.parts (formatMessage (Message.mk "1" user "what is this?" (Some "QQ==") 0)) =
  [Part.of_text "what is this?"; Part.of_inline "image/jpeg" None].
Proof.
  split_and!; [reflexivity.. |].
  apply (malformed_image_replayed "1" user "what is this?" "QQ==" 0); reflexivity.
Defined.

Section WithApi.
Context `{api : GenAI}.

Lemma generateResponse_ok h t img s :
  generateResponse h t img = Ok s <->
  exists r, generateContent (request h t img) = Ok r /\ s = replyText r.
Proof.
  unfold generateResponse. destruct (generateContent _) as [r|e].
  - split; [intros [= <-]; eauto | by intros (? & [= <-] & ->)].
  - split; [done | by intros (? & ? & _)].
Qed.

Lemma replyText_truthy r : Js.truthy (replyText r) = true.
Proof. unfold replyText, Js.or_else. destruct (text r) as [s|]; [|done]. by destruct s. Qed.

Lemma generateResponse_truthy h t img s :
  generateResponse h t img = Ok s -> Js.truthy s = true.
Proof. intros (r & _ & ->)%generateResponse_ok. apply replyText_truthy. Qed.

(** C14: [generateResponse] fails exactly when its one call to the API
    fails, and with the same error: no retry, no substitution. *)
Theorem generateResponse_error h t img e :
  generateResponse h t img = Err e <-> generateContent (request h t img) = Err e.
Proof. unfold generateResponse. destruct (generateContent _); split; congruence. Qed.

(** C3: A successful reply is never the empty string: a response with no
    text, or an empty text, becomes the fixed apology. *)
Theorem generateResponse_reply_nonempty h t img s :
  generateResponse h t img = Ok s -> Js.truthy s = true.
Proof. apply generateResponse_truthy. Qed.

End WithApi.

(** The API answering without text: the reply is the apology. *)
Lemma generateResponse_reply_nonempty_witness :
  @generateResponse (fun _ => Ok (mkResponse None)) [] "hi" None = Ok FALLBACK_REPLY /\
  Js.truthy FALLBACK_REPLY = true.
Proof.
  split; [reflexivity|].
  exact (@generateResponse_reply_nonempty (fun _ => Ok (mkResponse None)) [] "hi" None _ eq_refl).
Defined.

End Gemini.
