(* ===== verification/View.v ===== *)
(** * The presentation components as virtual-DOM values

    [src/components/ChatMessage.tsx] and [src/components/Header.tsx] are
    pure functions from props to JSX.  [Node] is the JSX they build: an
    element with its tag, its [className], its other attributes and its
    children, an icon of [lucide-react], or the [ReactMarkdown] element
    with its source text (markdown parsing itself is the library's and is
    not modelled).  A [{cond && <el/>}] child that is falsy renders
    nothing, so it contributes no node.  [conversation_view] is the list
    of bubbles [App.tsx] renders for the store (modelled from the
    specification, as [App.tsx] is not among the sources). *)

From S2P Require Import Prelude JsString Types Gemini.

Module View.

Inductive Node :=
  | El (tag : string) (cls : string) (attrs : list (string * string)) (children : list Node)
  | Icon (name : string) (size : nat) (cls : string)
  | Markdown (cls : string) (source : string)
  | Txt (s : string).

(** [ChatMessage]: the custom [code] renderer passed to [ReactMarkdown]. *)
Definition codeClass (inline : bool) : string :=
  if inline then "bg-black/10 px-1 py-0.5 rounded font-mono text-sm"
  else "block bg-black/5 p-2 rounded-lg overflow-x-auto".

(** [{message.image && (<div className="mb-2"><img .../></div>)}]. *)
Definition imageNodes (message : Message.t) : list Node :=
  match Message.image message with
  | Some src =>
      if Js.truthy src then
        [El "div" "mb-2" []
           [El "img" "max-w-full rounded-lg border border-slate-200/20 max-h-60 object-contain bg-black/5"
               [("src", src); ("alt", "Uploaded content")] []]]
      else []
  | None => []
  end.

(** [ChatMessage]: the bubble of one message. *)
Definition chatMessage (message : Message.t) : Node :=
  let isModel := bool_decide (Message.role message = model) in
  El "div" ("flex w-full " +:+ (if isModel then "justify-start" else "justify-end")) []
    [El "div" ("flex max-w-[85%] sm:max-w-[75%] " +:+
               (if isModel then "flex-row" else "flex-row-reverse") +:+ " items-start gap-3") []
       [El "div" ("flex-shrink-0 w-8 h-8 rounded-full flex items-center justify-center " +:+
                  (if isModel then "bg-indigo-100 text-indigo-600" else "bg-slate-200 text-slate-600")) []
          [if isModel then Icon "Bot" 18 EmptyString else Icon "User" 18 EmptyString];
        El "div" ("flex flex-col space-y-2 p-4 rounded-2xl shadow-sm " +:+
                  (if isModel then "bg-white border border-slate-100 rounded-tl-none text-slate-800"
                   else "bg-indigo-600 text-white rounded-tr-none")) []
          (imageNodes message ++
           [El "div" ("prose prose-sm max-w-none break-words leading-relaxed " +:+
                      (if isModel then "prose-slate" else "prose-invert")) []
              [Markdown (codeClass true +:+ "|" +:+ codeClass false) (Message.text message)]])]].

(** [Header]: a constant. *)
Definition header : Node :=
  El "header" "bg-white border-b border-slate-200 px-6 py-4 flex items-center justify-between sticky top-0 z-10 shadow-sm" []
    [El "div" "flex items-center space-x-3" []
       [El "div" "bg-indigo-600 p-2 rounded-lg" [] [Icon "GraduationCap" 0 "text-white w-6 h-6"];
        El "div" EmptyString []
          [El "h1" "text-xl font-bold text-slate-800 tracking-tight" [] [Txt "Socratic Tutor"];
           El "p" "text-xs text-slate-500 font-medium" [] [Txt "Powered by Gemini 3 Pro"]]];
     El "div" "hidden sm:flex items-center space-x-2 bg-indigo-50 px-3 py-1.5 rounded-full border border-indigo-100" []
       [Icon "Sparkles" 0 "w-4 h-4 text-indigo-600";
        El "span" "text-xs font-semibold text-indigo-700" [] [Txt "Deep Reasoning Enabled"]]].

(** ** Reading a rendered tree *)

(** What [f] reads off every node of a tree, in document order. *)
Fixpoint collect {A} (f : Node -> list A) (n : Node) : list A :=
  f n ++
  match n with
  | El _ _ _ children =>
      (fix go (l : list Node) : list A :=
         match l with [] => [] | c :: l' => collect f c ++ go l' end) children
  | _ => []
  end.

(** The value of the attribute [k] among an element's attributes. *)
Fixpoint attr (k : string) (attrs : list (string * string)) : option string :=
  match attrs with
  | [] => None
  | (k', v) :: rest => if bool_decide (k' = k) then Some v else attr k rest
  end.

(** The [src] of every [img] element, in document order. *)
Definition images : Node -> list string :=
  collect (fun n => match n with
                    | El tag _ attrs _ =>
                        if bool_decide (tag = "img") then option_list (attr "src" attrs) else []
                    | _ => []
                    end).

(** The source of every [ReactMarkdown] element, in document order. *)
Definition markdown_sources : Node -> list string :=
  collect (fun n => match n with Markdown _ src => [src] | _ => [] end).

(** The icons, in document order. *)
Definition icons : Node -> list string :=
  collect (fun n => match n with Icon name _ _ => [name] | _ => [] end).

Lemma collect_El {A} (f : Node -> list A) tag cls attrs children :
  collect f (El tag cls attrs children) = f (El tag cls attrs children) ++ mjoin (collect f <$> children).
Proof. cbn [collect]. f_equal. induction children as [|c l IH]; simpl; [done|]. by rewrite IH. Qed.

(** The readers of a forest: the concatenation over its trees. *)
Lemma collect_forest {A} (f : Node -> list A) tag cls attrs children :
  f (El tag cls attrs children) = [] ->
  collect f (El tag cls attrs children) = mjoin (collect f <$> children).
Proof. intros Hf. by rewrite collect_El, Hf. Qed.

(** The inline parts of a request turn. *)
Definition inline_parts (h : HistoryItem.t) : list Part.t :=
  filter (fun p => is_Some (Part.inlineData p)) (HistoryItem.parts h).

(** The avatar icon of a bubble: [isModel ? <Bot/> : <User/>]. *)
Definition avatar (r : Role) : string :=
  if bool_decide (r = model) then "Bot" else "User".

(** The message list of the application: [messages.map(msg =>
    <ChatMessage key={msg.id} message={msg} />)], below the header. *)
Definition conversation_view (messages : list Message.t) : list Node :=
  chatMessage <$> messages.

(** The case analysis of a bubble: its role, and whether its image is
    present and truthy. *)
Ltac bubble_cases m :=
  destruct (bool_decide _);
  destruct (Message.image m) as [src|]; try destruct (Js.truthy src); simpl; done.

(** ** Theorems *)

Lemma images_imageNodes m :
  images (chatMessage m) =
  match Message.image m with Some src => if Js.truthy src then [src] else [] | None => [] end.
Proof.
  unfold chatMessage, imageNodes. bubble_cases m.
Qed.

(** The number of images of a bubble is the number of inline parts the
    request builder replays for its message. *)
Lemma image_count_agrees m :
  length (images (chatMessage m)) = length (inline_parts (Gemini.formatMessage m)).
Proof.
  rewrite images_imageNodes. unfold inline_parts, Gemini.formatMessage. cbn [HistoryItem.parts].
  rewrite filter_app, length_app.
  assert (length (filter (fun p => is_Some (Part.inlineData p))
            (if Js.truthy (Message.text m) then [Part.of_text (Message.text m)] else [])) = 0%nat) as ->.
  { destruct (Js.truthy _); [|done]. rewrite filter_cons_False; [done|]. by intros []. }
  destruct (Message.image m) as [src|]; [destruct (Js.truthy src)|]; [|done..].
  rewrite filter_cons_True; [done|]. by eexists.
Qed.

Lemma avatar_chatMessage m : icons (chatMessage m) = [avatar (Message.role m)].
Proof.
  unfold chatMessage, imageNodes, avatar. bubble_cases m.
Qed.

(** C21: The bubble of a message shows an image exactly when the request
    builder replays an inline part for it: the view and [formatHistory]
    test [message.image] the same way. *)
Theorem bubble_image_matches_request m :
  length (images (chatMessage m)) =
  length (filter (fun p => is_Some (Part.inlineData p)) (HistoryItem.parts (Gemini.formatMessage m))).
Proof. apply image_count_agrees. Qed.

(** A bubble renders its message's text verbatim, as its one markdown
    source. *)
Lemma markdown_chatMessage m : markdown_sources (chatMessage m) = [Message.text m].
Proof. unfold chatMessage, imageNodes. bubble_cases m. Qed.

End View.
