(* ===== verification/InputArea.v ===== *)
(** * The input area of [src/components/InputArea.tsx]

    The component's React state ([text], [selectedImage]), the value of the
    hidden file input, and the file reads that [handleFileChange] has
    started and not yet finished (each [await convertFileToBase64] is a
    suspension point: other events run before the read settles).  One
    event is one handler run; [step] returns the new state and the effects
    the handler performs ([onSend], [alert], [console.error]).  The prop
    [isLoading] is an input of every step. *)

From S2P Require Import Prelude JsString Types DataUrl.

Module InputArea.
Import FileReader.

Record State := mkState {
  text : string;
  selectedImage : option ImageData.t;
  fileValue : string;          (** the file input's [value] *)
  pending : list File          (** reads started and not settled, oldest first *)
}.

Definition init : State := mkState EmptyString None EmptyString [].

Inductive Event :=
  | TextChange (v : string)                (** [onChange] of the textarea *)
  | KeyDown (key : string) (shiftKey : bool) (** [onKeyDown] of the textarea *)
  | SendClick                              (** the send button *)
  | ClearClick                             (** the remove-image button *)
  | FilePick (file : option File)          (** the file dialog closes *)
  | ReadSettled (k : nat) (o : ReadOutcome). (** the [k]-th pending read settles *)

Inductive Effect :=
  | OnSend (p : UserParams.t)
  | Alert (msg : string)
  | ConsoleError.

#[export] Instance Effect_eq_dec : EqDecision Effect.
Proof. solve_decision. Defined.

Definition set_text (s : State) (v : string) : State :=
  mkState v (selectedImage s) (fileValue s) (pending s).
Definition set_image (s : State) (i : option ImageData.t) : State :=
  mkState (text s) i (fileValue s) (pending s).
Definition set_fileValue (s : State) (v : string) : State :=
  mkState (text s) (selectedImage s) v (pending s).
Definition set_pending (s : State) (p : list File) : State :=
  mkState (text s) (selectedImage s) (fileValue s) p.

(** [(!text.trim() && !selectedImage) || isLoading]: the early return of
    [handleSend], and the [disabled] attribute of the send button. *)
Definition send_blocked (isLoading : bool) (s : State) : bool :=
  (negb (Js.truthy (Js.trim (text s))) && bool_decide (selectedImage s = None)) || isLoading.

(** [handleSend]. *)
Definition handleSend (isLoading : bool) (s : State) : State * list Effect :=
  if send_blocked isLoading s then (s, [])
  else (set_image (set_text s EmptyString) None,
        [OnSend (UserParams.mk (text s) (selectedImage s))]).

(** [clearImage]: the remove-image button. *)
Definition clearImage (s : State) : State := set_image s None.

(** [handleKeyDown]: Enter without Shift sends. *)
Definition handleKeyDown (isLoading : bool) (s : State) (key : string) (shiftKey : bool)
    : State * list Effect :=
  if bool_decide (key = "Enter") && negb shiftKey then handleSend isLoading s else (s, []).

(** [handleFileChange], up to its [await]: no file, a rejected type, or a
    read started. *)
Definition handleFileChange (s : State) (file : option File) : State * list Effect :=
  match file with
  | None => (s, [])
  | Some f =>
      if negb (Js.starts_with "image/" (type f)) then (s, [Alert "Please upload an image file"])
      else (set_pending s (pending s ++ [f]), [])
  end.

(** The rest of [handleFileChange], when its read settles: store the
    image or log the error, then reset the file input. *)
Definition resume (s : State) (f : File) (o : ReadOutcome) : State * list Effect :=
  let '(s', eff) :=
    match Codec.convertFileToBase64 f o with
    | Ok url => (set_image s (Some (Codec.image_of_url f url)), [])
    | Err _ => (s, [ConsoleError])
    end in
  (set_fileValue s' EmptyString, eff).

(** The browser fires [change] only when the selection changes its value. *)
Definition pick_value (file : option File) : string :=
  match file with Some f => name f | None => EmptyString end.

(** One event. *)
Definition step (isLoading : bool) (s : State) (e : Event) : State * list Effect :=
  match e with
  | TextChange v => if isLoading then (s, []) else (set_text s v, [])
  | KeyDown key sh => handleKeyDown isLoading s key sh
  | SendClick => handleSend isLoading s
  | ClearClick => (clearImage s, [])
  | FilePick file =>
      if bool_decide (pick_value file = fileValue s) then (s, [])
      else handleFileChange (set_fileValue s (pick_value file)) file
  | ReadSettled k o =>
      match pending s !! k with
      | Some f => resume (set_pending s (delete k (pending s))) f o
      | None => (s, [])
      end
  end.

(** A run: the events with the [isLoading] prop at each of them. *)
Fixpoint run (s : State) (evs : list (bool * Event)) : State * list Effect :=
  match evs with
  | [] => (s, [])
  | (l, e) :: evs' =>
      let '(s1, eff1) := step l s e in
      let '(s2, eff2) := run s1 evs' in
      (s2, eff1 ++ eff2)
  end.

(** ** The well-formedness invariant *)

Definition image_file (f : File) : bool := Js.starts_with "image/" (type f).

(** The image a loaded file becomes. *)
Definition image_of_file (f : File) : ImageData.t :=
  Codec.image_of_url f (readAsDataURL f).

(** The selected image, when there is one, was read from a file of an
    image type, and every pending read is of such a file. *)
Definition wf (s : State) : Prop :=
  (forall d, selectedImage s = Some d -> exists f, image_file f = true /\ d = image_of_file f) /\
  Forall (fun f => image_file f = true) (pending s).

Lemma wf_init : wf init.
Proof. split; [done | constructor]. Qed.

Lemma wf_set_text s v : wf s -> wf (set_text s v).
Proof. done. Qed.

Lemma wf_set_fileValue s v : wf s -> wf (set_fileValue s v).
Proof. done. Qed.

Lemma wf_clear_image s : wf s -> wf (set_image s None).
Proof. intros [_ Hp]. split; [done | exact Hp]. Qed.

Lemma wf_clearImage s : wf s -> wf (clearImage s).
Proof. apply wf_clear_image. Qed.

#[export] Hint Resolve wf_init wf_set_text wf_set_fileValue wf_clear_image wf_clearImage : chat.

Lemma wf_handleSend l s : wf s -> wf (handleSend l s).1.
Proof. unfold handleSend. destruct (send_blocked l s); simpl; auto with chat. Qed.


Lemma wf_handleFileChange s file : wf s -> wf (handleFileChange s file).1.
Proof.
  intros [Hi Hp]. destruct file as [f|]; [|by split]. unfold handleFileChange.
  destruct (Js.starts_with "image/" (type f)) eqn:E; cbn [negb fst]; [|by split].
  split; [exact Hi|]. apply Forall_app. split; [exact Hp | by constructor].
Qed.

Lemma wf_resume s f o : wf s -> image_file f = true -> wf (resume s f o).1.
Proof.
  intros [Hi Hp] Hf. destruct o; simpl; [|by split].
  split; [|exact Hp]. intros d [= <-]. eauto.
Qed.

Lemma step_preserves_wf l s e : wf s -> wf (step l s e).1.
Proof.
  intros Hs. destruct e as [v|key sh| | |file|k o]; simpl.
  - destruct l; simpl; auto with chat.
  - unfold handleKeyDown. destruct (_ && _); [by apply wf_handleSend | done].
  - by apply wf_handleSend.
  - auto with chat.
  - case_bool_decide; [done|]. auto using wf_handleFileChange with chat.
  - destruct (pending s !! k) as [f|] eqn:Hk; [|done].
    destruct Hs as [Hi Hp]. apply wf_resume.
    + split; [exact Hi | by apply Forall_delete].
    + exact (Forall_lookup_1 _ _ _ _ Hp Hk).
Qed.

Lemma wf_run s evs : wf s -> wf (run s evs).1.
Proof.
  revert s. induction evs as [|[l e] evs IH]; intros s Hs; simpl; [done|].
  pose proof (step_preserves_wf l s e Hs) as Hs1.
  destruct (step l s e) as [s1 eff1]. pose proof (IH s1 Hs1) as Hs2.
  destruct (run s1 evs) as [s2 eff2]. exact Hs2.
Qed.

(** C9: Every event keeps the component's invariant: the selected image,
    when there is one, was read from a file of an image type, and so is
    every file whose read is pending. *)
Theorem wf_step l s e : wf s -> wf (step l s e).1.
Proof. apply step_preserves_wf. Qed.

Lemma wf_step_witness :
  wf init /\ wf (step false init (FilePick (Some Codec.png_file))).1.
Proof. split; [exact wf_init | exact (wf_step false init _ wf_init)]. Defined.

(** ** What the component sends *)

(** The parameters [onSend] receives: a non-blank text or an image, and the
    image is the one read from a file of an image type. *)
Definition sent_ok (p : UserParams.t) : Prop :=
  (Js.truthy (Js.trim (UserParams.text p)) = true \/ UserParams.image p <> None) /\
  (forall d, UserParams.image p = Some d -> exists f, image_file f = true /\ d = image_of_file f).

Lemma handleSend_sent l s p :
  wf s -> OnSend p ∈ (handleSend l s).2 -> l = false /\ sent_ok p.
Proof.
  intros [Hi _]. unfold handleSend, send_blocked.
  destruct (_ || l) eqn:Hb; simpl; [by intros ?%elem_of_nil|].
  intros [= ->]%list_elem_of_singleton.
  apply orb_false_iff in Hb as [Hb ->]. split; [done|]. split; [|exact Hi].
  apply andb_false_iff in Hb as [Hb|Hb]; [left; by destruct (Js.truthy _)|].
  right. by apply bool_decide_eq_false in Hb.
Qed.

Lemma resume_no_send s f o p : OnSend p ∉ (resume s f o).2.
Proof. destruct o; simpl; set_solver. Qed.

Lemma handleFileChange_no_send s file p : OnSend p ∉ (handleFileChange s file).2.
Proof.
  destruct file as [f|]; [|set_solver]. unfold handleFileChange.
  destruct (negb _); simpl; set_solver.
Qed.

Lemma step_sent l s e p :
  wf s -> OnSend p ∈ (step l s e).2 -> l = false /\ sent_ok p.
Proof.
  intros Hs. destruct e as [v|key sh| | |file|k o]; simpl.
  - destruct l; simpl; set_solver.
  - unfold handleKeyDown. destruct (_ && _); [by apply handleSend_sent | set_solver].
  - by apply handleSend_sent.
  - set_solver.
  - case_bool_decide; [set_solver|]. by intros ?%handleFileChange_no_send.
  - destruct (pending s !! k); [by intros ?%resume_no_send | set_solver].
Qed.

(** A step that sends performs nothing else. *)
Lemma step_sent_only l s e p :
  OnSend p ∈ (step l s e).2 -> (step l s e).2 = [OnSend p].
Proof.
  destruct e as [v|key sh| | |file|k o]; simpl.
  - destruct l; simpl; set_solver.
  - unfold handleKeyDown, handleSend. destruct (_ && _); [|set_solver].
    destruct (send_blocked l s); simpl; [set_solver | by intros [= ->]%list_elem_of_singleton].
  - unfold handleSend. destruct (send_blocked l s); simpl; [set_solver | by intros [= ->]%list_elem_of_singleton].
  - set_solver.
  - case_bool_decide; [set_solver|]. by intros ?%handleFileChange_no_send.
  - destruct (pending s !! k); [by intros ?%resume_no_send | set_solver].
Qed.

(** C4: Every [onSend] of a run from a well-formed state happens at an
    event where the application is not loading, and carries a non-blank
    text or an image read from a file of an image type. *)
Theorem run_sent s evs p :
  wf s -> OnSend p ∈ (run s evs).2 ->
  (exists e, (false, e) ∈ evs) /\ sent_ok p.
Proof.
  revert s. induction evs as [|[l e] evs IH]; intros s Hs; simpl; [set_solver|].
  pose proof (step_preserves_wf l s e Hs) as Hs1. pose proof (step_sent l s e p Hs) as Hst.
  destruct (step l s e) as [s1 eff1]. pose proof (IH s1 Hs1) as IH1.
  destruct (run s1 evs) as [s2 eff2]. simpl in *. intros [H|H]%elem_of_app.
  - destruct (Hst H) as [-> Hp]. split; [exists e; set_solver | exact Hp].
  - destruct (IH1 H) as [[e' He'] Hp]. split; [exists e'; set_solver | exact Hp].
Qed.

Definition typed_and_sent : list (bool * Event) := [(false, TextChange "x^2?"); (false, SendClick)].

Lemma run_sent_witness :
  wf init /\ OnSend (UserParams.mk "x^2?" None) ∈ (run init typed_and_sent).2 /\
  (exists e, (false, e) ∈ typed_and_sent) /\ sent_ok (UserParams.mk "x^2?" None).
Proof.
  assert (OnSend (UserParams.mk "x^2?" None) ∈ (run init typed_and_sent).2) as Hin
    by (apply (bool_decide_unpack _); vm_compute; reflexivity).
  split_and!; [exact wf_init | exact Hin | exact (proj1 (run_sent _ _ _ wf_init Hin)) |
    exact (proj2 (run_sent _ _ _ wf_init Hin))].
Defined.

(** ** Guards and interleavings *)

(** C10: While loading, or with a text made only of whitespace and no
    image, neither the send button nor any key changes the state or
    sends anything; and in every state a key other than Enter, or Enter
    with Shift, does nothing. *)
Theorem blocked_send_noop l s key sh :
  ((l = true \/ (str_forall Js.is_js_space (text s) = true /\ selectedImage s = None)) ->
   step l s SendClick = (s, []) /\ step l s (KeyDown key sh) = (s, [])) /\
  ((key <> "Enter" \/ sh = true) -> step l s (KeyDown key sh) = (s, [])).
Proof.
  split.
  - intros Hb. assert (send_blocked l s = true) as Hs.
    { unfold send_blocked. destruct Hb as [-> | [Hw ->]]; [apply orb_true_r|].
      rewrite Js.truthy_trim_lemma, Hw. done. }
    cbn [step]. unfold handleKeyDown, handleSend. rewrite Hs.
    split; [done|]. by destruct (_ && _).
  - intros Hk. cbn [step]. unfold handleKeyDown.
    destruct Hk as [Hk | ->]; [by rewrite bool_decide_eq_false_2 | by rewrite andb_false_r].
Qed.

Lemma blocked_send_noop_witness :
  step true (set_text init "x^2?") SendClick = (set_text init "x^2?", []) /\
  step false (set_text init "   ") (KeyDown "Enter" false) = (set_text init "   ", []) /\
  step false (set_text init "x^2?") (KeyDown "Enter" true) = (set_text init "x^2?", []).
Proof.
  split_and!.
  - exact (proj1 (proj1 (blocked_send_noop true (set_text init "x^2?") "Enter" false)
                         (or_introl eq_refl))).
  - exact (proj2 (proj1 (blocked_send_noop false (set_text init "   ") "Enter" false)
                         (or_intror (conj eq_refl eq_refl)))).
  - exact (proj2 (blocked_send_noop false (set_text init "x^2?") "Enter" true) (or_intror eq_refl)).
Defined.

(** C18: A read that settles after the user has sent attaches its image to
    the next message: the message sent carries no image, and the image is
    left selected afterwards. *)
Theorem late_read_attaches_to_next s f :
  pending s = [f] -> selectedImage s = None -> Js.truthy (Js.trim (text s)) = true ->
  run s [(false, SendClick); (true, ReadSettled 0 Loaded)] =
  (mkState EmptyString (Some (image_of_file f)) EmptyString [],
   [OnSend (UserParams.mk (text s) None)]).
Proof.
  intros Hp Hi Ht. simpl. unfold handleSend, send_blocked.
  rewrite Ht, Hi. simpl. by rewrite Hp.
Qed.

(** Text typed while a PNG is being read. *)
Definition reading_png : State := mkState "Is this right?" None "a.png" [Codec.png_file].

Lemma late_read_attaches_to_next_witness :
  pending reading_png = [Codec.png_file] /\ selectedImage reading_png = None /\
  Js.truthy (Js.trim (text reading_png)) = true /\
  run reading_png [(false, SendClick); (true, ReadSettled 0 Loaded)] =
  (mkState EmptyString (Some (image_of_file Codec.png_file)) EmptyString [],
   [OnSend (UserParams.mk "Is this right?" None)]).
Proof. split_and!; [reflexivity..|]. apply late_read_attaches_to_next; reflexivity. Defined.

(** C19: Two reads settling in the opposite order of the picks leave the
    first picked file selected, not the last one. *)
Theorem reads_last_settled_wins s f1 f2 :
  pending s = [f1; f2] ->
  selectedImage (run s [(false, ReadSettled 1 Loaded); (false, ReadSettled 0 Loaded)]).1 =
  Some (image_of_file f1).
Proof. intros Hp. simpl. by rewrite Hp. Qed.

(** Two PNGs picked one after the other, both still being read. *)
Definition empty_png : File := mkFile "b.png" "image/png" [].
Definition reading_two : State := mkState EmptyString None "b.png" [Codec.png_file; empty_png].

Lemma reads_last_settled_wins_witness :
  pending reading_two = [Codec.png_file; empty_png] /\
  selectedImage (run reading_two [(false, ReadSettled 1 Loaded); (false, ReadSettled 0 Loaded)]).1 =
  Some (image_of_file Codec.png_file).
Proof. split; [reflexivity | apply (reads_last_settled_wins _ _ empty_png); reflexivity]. Defined.

(** C20: A file of another type is rejected with an alert and no read; the
    input keeps its value, so picking the same file again runs no handler
    and shows no second alert. *)
Theorem rejected_file_repick s f :
  Js.starts_with "image/" (type f) = false -> name f <> fileValue s ->
  run s [(false, FilePick (Some f)); (false, FilePick (Some f))] =
  (set_fileValue s (name f), [Alert "Please upload an image file"]).
Proof.
  intros Ht Hn. unfold run, step. rewrite bool_decide_eq_false_2 by done.
  unfold handleFileChange. rewrite Ht. cbn [negb pick_value fileValue set_fileValue].
  rewrite bool_decide_eq_true_2 by done. done.
Qed.

Definition notes_file : File := mkFile "notes.txt" "text/plain" [].

Lemma rejected_file_repick_witness :
  Js.starts_with "image/" (type notes_file) = false /\ name notes_file <> fileValue init /\
  run init [(false, FilePick (Some notes_file)); (false, FilePick (Some notes_file))] =
  (set_fileValue init (name notes_file), [Alert "Please upload an image file"]).
Proof.
  assert (name notes_file <> fileValue init) as Hn by discriminate.
  split_and!; [reflexivity | exact Hn | apply rejected_file_repick; [reflexivity | exact Hn]].
Defined.

(** ** A failed read *)

(** C28: A read that fails discards the attachment and leaves the
    composition as it was: the text and the previously selected image
    stay, the file input is reset so that the same file can be picked
    again, and the only effect is a line on the console; the user gets no
    alert. *)
Theorem read_failure_logged_only l s k f :
  pending s !! k = Some f ->
  let '(s', eff) := step l s (ReadSettled k ReadError) in
  text s' = text s /\ selectedImage s' = selectedImage s /\ fileValue s' = EmptyString /\
  length (pending s') = pred (length (pending s)) /\
  eff = [ConsoleError] /\ (forall msg, Alert msg ∉ eff).
Proof.
  intros Hk. cbn [step]. rewrite Hk. cbn [resume Codec.convertFileToBase64].
  cbn [text selectedImage fileValue pending set_fileValue set_pending].
  split_and!; [done..| |done|set_solver].
  rewrite length_delete by (by eexists). lia.
Qed.

(** A PNG with text typed and an earlier image selected, whose read fails. *)
Definition reading_over_image : State :=
  mkState "and this one?" (Some (image_of_file empty_png)) "a.png" [Codec.png_file].

Lemma read_failure_logged_only_witness :
  pending reading_over_image !! 0%nat = Some Codec.png_file /\
  selectedImage (step false reading_over_image (ReadSettled 0 ReadError)).1 =
  Some (image_of_file empty_png).
Proof.
  pose proof (read_failure_logged_only false reading_over_image 0 Codec.png_file eq_refl) as H.
  destruct (step false reading_over_image (ReadSettled 0 ReadError)) as [s' eff].
  split; [reflexivity | apply H].
Defined.

(** ** Every started read settles *)

(** What settling the oldest pending read with outcome [o] leaves. *)
Definition settled_image (s : State) (f : File) (o : ReadOutcome) : option ImageData.t :=
  match o with Loaded => Some (image_of_file f) | ReadError => selectedImage s end.

Definition settled_effects (o : ReadOutcome) : list Effect :=
  match o with Loaded => [] | ReadError => [ConsoleError] end.

Lemma run_cons_step s l e evs s1 eff1 :
  step l s e = (s1, eff1) -> run s ((l, e) :: evs) = ((run s1 evs).1, eff1 ++ (run s1 evs).2).
Proof. intros He. simpl. rewrite He. by destruct (run s1 evs). Qed.

(** C24: The reads [handleFileChange] starts all settle, with a result
    fixed by the outcome: settling the oldest pending read once per
    pending read, whatever the [isLoading] prop, leaves no read pending,
    the text as it was and the file input reset; when every read loads,
    the last picked file is selected and nothing else happens; when every
    read fails, the earlier selection stays and each failure logs once. *)
Theorem pending_reads_drain s l o :
  pending s <> [] ->
  run s (replicate (length (pending s)) (l, ReadSettled 0 o)) =
  (mkState (text s)
     (match o with
      | Loaded => image_of_file <$> last (pending s)
      | ReadError => selectedImage s
      end) EmptyString [],
   match o with
   | Loaded => []
   | ReadError => replicate (length (pending s)) ConsoleError
   end).
Proof.
  remember (pending s) as ps eqn:Hps. revert s Hps.
  induction ps as [|f rest IH]; intros s Hps Hne; [done|].
  rewrite length_cons, replicate_S.
  assert (step l s (ReadSettled 0 o) =
          (mkState (text s) (settled_image s f o) EmptyString rest, settled_effects o)) as Hst
    by (cbn [step]; rewrite <- Hps; by destruct o).
  rewrite (run_cons_step _ _ _ _ _ _ Hst).
  destruct rest as [|f' rest'].
  - by destruct o.
  - rewrite (IH (mkState (text s) (settled_image s f o) EmptyString (f' :: rest')) eq_refl) by done.
    cbn [text selectedImage settled_image settled_effects].
    by destruct o.
Qed.

(** Two PNGs picked one after the other, with a question typed. *)
Definition reading_two_typed : State := mkState "compare?" None "b.png" [Codec.png_file; empty_png].

Lemma pending_reads_drain_witness :
  pending reading_two_typed <> [] /\
  run reading_two_typed [(false, ReadSettled 0 Loaded); (false, ReadSettled 0 Loaded)] =
  (mkState "compare?" (Some (image_of_file empty_png)) EmptyString [], []).
Proof.
  assert (pending reading_two_typed <> []) as Hne by discriminate.
  split; [exact Hne | exact (pending_reads_drain reading_two_typed false Loaded Hne)].
Defined.

End InputArea.
