(* ===== verification/Composer.v ===== *)
(** * The markup of [src/components/InputArea.tsx]

    The JSX the input area returns (lines 72-145), as a [View.Node] built
    from its [State] and the [isLoading] prop: the preview of the selected
    image with its remove button, the upload button, the hidden file
    input, the textarea and the send button, and the disclaimer.  An event
    prop ([onClick], [onChange], [onKeyDown]) is an attribute whose value
    is the handler's name, or the source text of the arrow function
    passed inline; [disabled={b}] is the attribute [disabled], present
    exactly when [b] is true, as React renders it.  The theorems tie the
    markup to the handlers of [InputArea]: the controls the user can reach
    are exactly the handlers that act. *)

From S2P Require Import Prelude JsString Types DataUrl Gemini View InputArea.

Module Composer.
Import View InputArea.

(** [disabled={b}]. *)
Definition disabled_attr (b : bool) : list (string * string) :=
  if b then [("disabled", EmptyString)] else [].

(** [{selectedImage && (...)}]: the preview and its remove button. *)
Definition preview (s : State) : list Node :=
  match selectedImage s with
  | Some img =>
      [El "div" "relative inline-block w-fit" []
         [El "div" "relative group" []
            [El "img" "h-20 w-20 object-cover rounded-lg border border-slate-300 shadow-sm"
                [("src", ImageData.preview img); ("alt", "Preview")] [];
             El "button" "absolute -top-2 -right-2 bg-red-500 text-white rounded-full p-1 shadow-md hover:bg-red-600 transition-colors"
                [("onClick", "clearImage")] [Icon "X" 12 EmptyString]];
          El "p" "text-xs text-slate-500 mt-1" [] [Txt "Image attached"]]]
  | None => []
  end.

(** The placeholder of the textarea. *)
Definition placeholder (s : State) : string :=
  if selectedImage s then "Add a question about this image..."
  else "Ask a math question or upload a problem...".

(** The class of the send button: greyed out exactly when it is disabled. *)
Definition send_class (isLoading : bool) (s : State) : string :=
  "p-2 rounded-xl flex items-center justify-center transition-all " +:+
  (if send_blocked isLoading s then "bg-slate-200 text-slate-400 cursor-not-allowed"
   else "bg-indigo-600 text-white hover:bg-indigo-700 shadow-sm").

(** The row of controls. *)
Definition controls_row (isLoading : bool) (s : State) : Node :=
  El "div" "flex items-end gap-2 bg-slate-50 border border-slate-200 rounded-2xl p-2 focus-within:ring-2 focus-within:ring-indigo-500/20 focus-within:border-indigo-400 transition-all shadow-sm" []
    [El "button" "p-2 text-slate-400 hover:text-indigo-600 hover:bg-indigo-50 rounded-xl transition-colors disabled:opacity-50"
        ([("onClick", "() => fileInputRef.current?.click()")] ++ disabled_attr isLoading ++
         [("title", "Upload image")])
        [Icon "Image" 20 EmptyString];
     El "input" "hidden" [("type", "file"); ("accept", "image/*"); ("onChange", "handleFileChange")] [];
     El "textarea" "flex-1 bg-transparent border-none focus:ring-0 resize-none max-h-32 min-h-[44px] py-2.5 text-slate-700 placeholder:text-slate-400 text-sm sm:text-base scrollbar-hide"
        ([("value", text s); ("onChange", "(e) => setText(e.target.value)");
          ("onKeyDown", "handleKeyDown"); ("placeholder", placeholder s); ("rows", "1")] ++
         disabled_attr isLoading) [];
     El "button" (send_class isLoading s)
        ([("onClick", "handleSend")] ++ disabled_attr (send_blocked isLoading s))
        [if isLoading then Icon "Loader2" 20 "animate-spin" else Icon "Send" 20 EmptyString]].

(** The component's return value. *)
Definition composer (isLoading : bool) (s : State) : Node :=
  El "div" "bg-white border-t border-slate-200 p-4 sticky bottom-0 z-20" []
    [El "div" "max-w-4xl mx-auto flex flex-col space-y-3" []
       (preview s ++
        [controls_row isLoading s;
         El "div" "text-center" []
           [El "p" "text-[10px] text-slate-400" []
              [Txt "AI can make mistakes. Please verify important calculations."]]])].

(** ** Reading the controls *)

(** The event props a control can carry. *)
Definition event_props : list string := ["onClick"; "onChange"; "onKeyDown"].

Definition disabled (attrs : list (string * string)) : bool :=
  if attr "disabled" attrs then true else false.

(** Every handler the markup wires, with whether its element is disabled,
    in document order. *)
Definition controls : Node -> list (string * bool) :=
  collect (fun n => match n with
                    | El _ _ attrs _ =>
                        (fun kv => (kv.2, disabled attrs)) <$>
                          filter (fun kv => kv.1 ∈ event_props) attrs
                    | _ => []
                    end).

(** ** What the markup shows *)

(** The composer's tree depends on the state only through the selected
    image, the loading flag and the send guard: once they are fixed the
    readers compute. *)
Ltac composer_cases l s :=
  generalize (send_blocked l s) as b; intros b;
  destruct (selectedImage s), l, b; reflexivity.

(** The handlers wired by a rendered composer, in document order. *)
Definition wired (isLoading : bool) (s : State) : list (string * bool) :=
  (if selectedImage s then [("clearImage", false)] else []) ++
  [("() => fileInputRef.current?.click()", isLoading); ("handleFileChange", false);
   ("(e) => setText(e.target.value)", isLoading); ("handleKeyDown", isLoading);
   ("handleSend", send_blocked isLoading s)].

Lemma controls_composer l s : controls (composer l s) = wired l s.
Proof.
  unfold composer, controls_row, preview, placeholder, send_class, wired.
  composer_cases l s.
Qed.

Lemma images_composer l s : images (composer l s) = ImageData.preview <$> option_list (selectedImage s).
Proof.
  unfold composer, controls_row, preview, send_class.
  composer_cases l s.
Qed.

Lemma icons_composer l s :
  icons (composer l s) =
  (if selectedImage s then ["X"] else []) ++ ["Image"; if l then "Loader2" else "Send"].
Proof.
  unfold composer, controls_row, preview, send_class.
  composer_cases l s.
Qed.

Lemma markdown_composer l s : markdown_sources (composer l s) = [].
Proof.
  unfold composer, controls_row, preview, send_class.
  composer_cases l s.
Qed.

(** A bubble wires no handler. *)
Lemma controls_chatMessage m : controls (chatMessage m) = [].
Proof. unfold chatMessage, imageNodes. bubble_cases m. Qed.

Lemma send_blocked_loading s : send_blocked true s = true.
Proof. apply orb_true_r. Qed.

(** C11: The markup wires exactly the handlers of [InputArea], in
    document order: the remove button when an image is selected, the
    upload button, the file input, the textarea's two handlers and the
    send button; the upload button and the textarea are disabled exactly
    while loading, and the send button exactly when [handleSend] would
    return early, so an enabled send button always sends the composed
    turn and clears the composer. *)
Theorem composer_controls_match_handlers l s :
  controls (composer l s) =
    (if selectedImage s then [("clearImage", false)] else []) ++
    [("() => fileInputRef.current?.click()", l); ("handleFileChange", false);
     ("(e) => setText(e.target.value)", l); ("handleKeyDown", l);
     ("handleSend", send_blocked l s)] /\
  (send_blocked l s = false ->
   step l s SendClick =
     (set_image (set_text s EmptyString) None, [OnSend (UserParams.mk (text s) (selectedImage s))])).
Proof.
  split; [apply controls_composer|].
  intros Hb. cbn [step]. unfold handleSend. by rewrite Hb.
Qed.

Lemma composer_controls_match_handlers_witness :
  send_blocked false (set_text init "2+2?") = false /\
  ("handleSend", false) ∈ controls (composer false (set_text init "2+2?")) /\
  step false (set_text init "2+2?") SendClick =
    (set_image (set_text (set_text init "2+2?") EmptyString) None,
     [OnSend (UserParams.mk "2+2?" None)]).
Proof.
  destruct (composer_controls_match_handlers false (set_text init "2+2?")) as [Hc Hs].
  split_and!; [reflexivity | rewrite Hc; set_solver | exact (Hs eq_refl)].
Defined.

End Composer.
