(* ===== verification/App.v ===== *)
(** * The conversation controller

    [App.tsx] is not among the sources; this file models it from the
    specification (section 4.5): the message store, the loading flag, the
    one request in flight and the error last surfaced.  [Submit] is the
    [onSend] callback of the input area; [Settle] is the settlement of the
    [generateResponse] promise, given by what the API answered.  Message
    identifiers come from a counter, rendered with [pretty]. *)

From stdpp Require Import pretty.
From S2P Require Import Prelude JsString Types DataUrl Gemini.

Module App.
Import Gemini.

(** The arguments of the [generateResponse] call in flight. *)
Record Call := mkCall {
  call_history : list Message.t;
  call_text : string;
  call_image : option string
}.

Record State := mkState {
  messages : list Message.t;
  isLoading : bool;
  inflight : option Call;
  lastError : option ApiError;
  nextId : nat
}.

Definition init : State := mkState [] false None None 0.

Inductive Event :=
  | Submit (p : UserParams.t) (now : Z)
  | Settle (o : result ApiError GenerateContentResponse) (now : Z).

(** The guard of a submission: empty or blank text with no attachment. *)
Definition blank (p : UserParams.t) : bool :=
  negb (Js.truthy (Js.trim (UserParams.text p))) && bool_decide (UserParams.image p = None).

(** [submit]: refused while a request is in flight or for a blank turn;
    otherwise the user message is appended at once and the request is
    sent with the history as it was before. *)
Definition submit (s : State) (p : UserParams.t) (now : Z) : State :=
  if isLoading s || blank p then s
  else
    let m := Message.mk (pretty (nextId s)) user (UserParams.text p)
               (ImageData.preview <$> UserParams.image p) now in
    mkState (messages s ++ [m]) true
      (Some (mkCall (messages s) (UserParams.text p) (ImageData.base64 <$> UserParams.image p)))
      None (S (nextId s)).

(** The promise of the call in flight settles: a reply is appended as a
    [model] message with no image; an error is surfaced and nothing is
    appended.  Either way the controller is idle again. *)
Definition settle (s : State) (o : result ApiError GenerateContentResponse) (now : Z) : State :=
  match inflight s with
  | None => s
  | Some c =>
      match @generateResponse (fun _ => o) (call_history c) (call_text c) (call_image c) with
      | Ok reply =>
          mkState (messages s ++ [Message.mk (pretty (nextId s)) Types.model reply None now])
            false None None (S (nextId s))
      | Err e => mkState (messages s) false None (Some e) (nextId s)
      end
  end.

Definition step (s : State) (e : Event) : State :=
  match e with
  | Submit p now => submit s p now
  | Settle o now => settle s o now
  end.

(** States reachable from the start of a session. *)
Inductive reachable : State -> Prop :=
  | reach_init : reachable init
  | reach_step s e : reachable s -> reachable (step s e).

(** ** The abstract conversation *)

(** What the specification's contract speaks of: a log of turns (role,
    text, image reference) and whether a reply is awaited.  Identifiers,
    timestamps and the call in flight are implementation detail. *)
Record Turn := mkTurn { turn_role : Role; turn_text : string; turn_image : option string }.
Record Conversation := mkConversation { log : list Turn; busy : bool }.

(** The contract: a non-blank user turn is logged when idle; a non-empty
    reply or a failure ends the wait. *)
Inductive conv_step : Conversation -> Conversation -> Prop :=
  | conv_submit a t i :
      busy a = false -> Js.truthy (Js.trim t) = true \/ i <> None ->
      conv_step a (mkConversation (log a ++ [mkTurn user t i]) true)
  | conv_reply a t :
      busy a = true -> Js.truthy t = true ->
      conv_step a (mkConversation (log a ++ [mkTurn Types.model t None]) false)
  | conv_fail a :
      busy a = true -> conv_step a (mkConversation (log a) false).

Definition turn_of (m : Message.t) : Turn :=
  mkTurn (Message.role m) (Message.text m) (Message.image m).

Definition abstract (s : State) : Conversation :=
  mkConversation (turn_of <$> messages s) (isLoading s).

(** ** The invariant *)

(** The data-model invariant of a message: a non-empty text or an image. *)
Definition msg_ok (m : Message.t) : Prop :=
  Js.truthy (Message.text m) = true \/ Message.image m <> None.

(** Identifiers are distinct and all drawn below the counter. *)
Definition ids_ok (s : State) : Prop :=
  NoDup (Message.id <$> messages s) /\
  Forall (fun m => exists k, k < nextId s /\ Message.id m = pretty k) (messages s).

(** Loading exactly when a call is in flight, and then the store is the
    call's history followed by the user message of the call. *)
Definition flight_ok (s : State) : Prop :=
  match inflight s with
  | None => isLoading s = false
  | Some c => isLoading s = true /\
      exists m, messages s = call_history c ++ [m] /\ Message.role m = user /\
                Message.text m = call_text c
  end.

Definition inv (s : State) : Prop :=
  Forall msg_ok (messages s) /\ ids_ok s /\ flight_ok s.

Lemma truthy_of_trim s : Js.truthy (Js.trim s) = true -> Js.truthy s = true.
Proof. by destruct s. Qed.

Lemma not_blank_msg_ok i p now :
  blank p = false ->
  msg_ok (Message.mk i user (UserParams.text p) (ImageData.preview <$> UserParams.image p) now).
Proof.
  unfold blank, msg_ok. cbn [Message.text Message.image].
  intros [Ht|Hi]%andb_false_iff.
  - left. apply truthy_of_trim. by destruct (Js.truthy _).
  - right. apply bool_decide_eq_false in Hi. by destruct (UserParams.image p).
Qed.

(** Appending a message with the counter's identifier keeps [ids_ok]. *)
Lemma ids_ok_snoc s m l c e :
  ids_ok s -> Message.id m = pretty (nextId s) ->
  ids_ok (mkState (messages s ++ [m]) l c e (S (nextId s))).
Proof.
  destruct s as [ms l0 c0 e0 n]. unfold ids_ok. cbn [messages nextId].
  intros [Hnd Hlt] Hm. split.
  - rewrite fmap_app. apply NoDup_app. split_and!; [done| |by apply NoDup_singleton].
    intros x (m' & -> & Hin)%list_elem_of_fmap Hx%list_elem_of_singleton.
    eapply Forall_forall in Hlt as (k & Hk & Heq); [|exact Hin].
    rewrite Hm, Heq in Hx. apply (inj pretty) in Hx. lia.
  - apply Forall_app. split.
    + eapply Forall_impl; [exact Hlt|]. intros m' (k & ? & ?). exists k. split; [lia|done].
    + constructor; [|constructor]. exists n. split; [lia|done].
Qed.

Lemma ids_ok_irrel ms l1 l2 c1 c2 e1 e2 n :
  ids_ok (mkState ms l1 c1 e1 n) -> ids_ok (mkState ms l2 c2 e2 n).
Proof. done. Qed.

Lemma inv_submit s p now : inv s -> inv (submit s p now).
Proof.
  intros (Hok & Hids & Hfl). unfold submit.
  destruct (isLoading s || blank p) eqn:Hg; [by split_and!|].
  apply orb_false_iff in Hg as [Hl Hb]. split_and!; cbn [messages inflight isLoading].
  - apply Forall_app. split; [done|]. constructor; [by apply not_blank_msg_ok | constructor].
  - by apply ids_ok_snoc.
  - split; [done|]. eexists. split_and!; [reflexivity|done|done].
Qed.

Lemma inv_settle s o now : inv s -> inv (settle s o now).
Proof.
  intros (Hok & Hids & Hfl). unfold settle.
  destruct (inflight s) as [c|] eqn:Hc; [|by split_and!].
  destruct (@generateResponse _ _ _ _) as [reply|e] eqn:Hr; split_and!; cbn [messages inflight isLoading]; try done.
  - apply Forall_app. split; [done|]. constructor; [|constructor].
    left. exact (@generateResponse_truthy (fun _ => o) _ _ _ _ Hr).
  - by apply ids_ok_snoc.
Qed.

Lemma inv_reachable s : reachable s -> inv s.
Proof.
  induction 1 as [|s [p now|o now] _ IH].
  - split_and!; [constructor | split; constructor | done].
  - by apply inv_submit.
  - by apply inv_settle.
Qed.

(** C1: Every reachable state of the controller satisfies the invariant:
    every stored message has a non-empty text or an image, identifiers are
    distinct, and a request is in flight exactly while loading, for the
    store's last message, a user message with the request's text. *)
Theorem reachable_inv s : reachable s -> inv s.
Proof. apply inv_reachable. Qed.

(** A user turn submitted from the start. *)
Definition first_turn : State :=
  step init (Submit (UserParams.mk "What is the derivative of x^2?" None) 0).

Lemma reachable_inv_witness : reachable first_turn /\ inv first_turn.
Proof.
  assert (reachable first_turn) as Hr by (apply reach_step, reach_init).
  split; [exact Hr | exact (reachable_inv first_turn Hr)].
Defined.

(** ** Behaviour *)

(** The store is append-only: every step keeps the old store as a
    prefix of the new one. *)
Theorem step_append_only s e : messages s `prefix_of` messages (step s e).
Proof.
  destruct e as [p now|o now]; simpl.
  - unfold submit. destruct (_ || _); simpl; [done | by eexists].
  - unfold settle. destruct (inflight s); [|done].
    destruct (@generateResponse _ _ _ _); simpl; [by eexists | done].
Qed.

(** While a request is in flight, or for a blank turn, a submission
    changes nothing. *)
Theorem submit_refused s p now :
  isLoading s = true \/ blank p = true -> step s (Submit p now) = s.
Proof. intros H. simpl. unfold submit. by destruct H as [-> | ->]; [|rewrite orb_true_r]. Qed.

Lemma submit_refused_witness :
  (isLoading first_turn = true \/ blank (UserParams.mk "again" None) = true) /\
  step first_turn (Submit (UserParams.mk "again" None) 1) = first_turn.
Proof.
  assert (isLoading first_turn = true \/ blank (UserParams.mk "again" None) = true) as H
    by (left; reflexivity).
  split; [exact H | exact (submit_refused first_turn _ 1 H)].
Defined.

(** When the call in flight fails, the store keeps the user message and
    gains no reply, the controller is idle again, and the API's error is
    surfaced unchanged. *)
Theorem settle_failure s c e now :
  inflight s = Some c ->
  step s (Settle (Err e) now) = mkState (messages s) false None (Some e) (nextId s).
Proof. intros Hc. simpl. unfold settle. by rewrite Hc. Qed.

Lemma settle_failure_witness :
  inflight first_turn = Some (mkCall [] "What is the derivative of x^2?" None) /\
  step first_turn (Settle (Err NetworkError) 5) =
  mkState (messages first_turn) false None (Some NetworkError) (nextId first_turn).
Proof. split; [reflexivity | apply (settle_failure _ (mkCall [] "What is the derivative of x^2?" None)); reflexivity]. Defined.

(** When the call in flight succeeds, exactly one [model] message is
    appended, without image, whose text is the answer's text or, when the
    answer has none, the fixed apology; the controller is idle again. *)
Theorem settle_success s c r now :
  inflight s = Some c ->
  step s (Settle (Ok r) now) =
  mkState (messages s ++ [Message.mk (pretty (nextId s)) Types.model (replyText r) None now])
    false None None (S (nextId s)).
Proof. intros Hc. simpl. unfold settle. by rewrite Hc. Qed.

Lemma settle_success_witness :
  inflight first_turn = Some (mkCall [] "What is the derivative of x^2?" None) /\
  step first_turn (Settle (Ok (mkResponse (Some "What do you think?"))) 5) =
  mkState (messages first_turn ++ [Message.mk (pretty (nextId first_turn)) Types.model
             (replyText (mkResponse (Some "What do you think?"))) None 5])
    false None None (S (nextId first_turn)).
Proof.
  split; [reflexivity|].
  apply (settle_success _ (mkCall [] "What is the derivative of x^2?" None)). reflexivity.
Defined.

(** C8: In every reachable state with a call in flight, the request sent
    has one turn per stored message, with the same roles in the same
    order: the whole conversation is resent. *)
Theorem inflight_request_mirrors_store s c :
  reachable s -> inflight s = Some c ->
  HistoryItem.role <$> contents (request (call_history c) (call_text c) (call_image c)) =
  Message.role <$> messages s.
Proof.
  intros Hr Hc. destruct (inv_reachable s Hr) as (_ & _ & Hfl).
  unfold flight_ok in Hfl. rewrite Hc in Hfl. destruct Hfl as (_ & m & -> & Hm & _).
  rewrite request_role_seq, fmap_app. simpl. by rewrite Hm.
Qed.

Lemma inflight_request_mirrors_store_witness :
  reachable first_turn /\ inflight first_turn = Some (mkCall [] "What is the derivative of x^2?" None) /\
  HistoryItem.role <$> contents (request [] "What is the derivative of x^2?" None) =
  Message.role <$> messages first_turn.
Proof.
  assert (reachable first_turn) as Hr by (apply reach_step, reach_init).
  split_and!; [exact Hr | reflexivity |].
  exact (inflight_request_mirrors_store first_turn _ Hr eq_refl).
Defined.

(** ** Refinement and progress *)

Lemma blank_false_cases p :
  blank p = false -> Js.truthy (Js.trim (UserParams.text p)) = true \/ ImageData.preview <$> UserParams.image p <> None.
Proof.
  unfold blank. intros [Ht|Hi]%andb_false_iff; [left; by destruct (Js.truthy _)|].
  right. apply bool_decide_eq_false in Hi. by destruct (UserParams.image p).
Qed.

Lemma loading_inflight s : reachable s -> isLoading s = true -> exists c, inflight s = Some c.
Proof.
  intros Hr Hl. destruct (inv_reachable s Hr) as (_ & _ & Hfl). unfold flight_ok in Hfl.
  destruct (inflight s) as [c|]; [by eexists | congruence].
Qed.

Lemma inflight_loading s c : reachable s -> inflight s = Some c -> isLoading s = true.
Proof.
  intros Hr Hc. destruct (inv_reachable s Hr) as (_ & _ & Hfl). unfold flight_ok in Hfl.
  rewrite Hc in Hfl. by destruct Hfl.
Qed.

(** C23: The controller refines the abstract conversation: seen through
    [abstract], every step from a reachable state either changes nothing
    or is one step of the contract (a non-blank user turn while idle, a
    non-empty reply or a failure while busy). *)
Theorem step_refines s e :
  reachable s -> abstract (step s e) = abstract s \/ conv_step (abstract s) (abstract (step s e)).
Proof.
  intros Hr. destruct e as [p now|o now]; simpl.
  - unfold submit. destruct (isLoading s || blank p) eqn:Hg; [by left|right].
    apply orb_false_iff in Hg as [Hl Hb]. unfold abstract. cbn [messages isLoading].
    rewrite fmap_app. apply conv_submit; [done|]. by apply blank_false_cases.
  - unfold settle. destruct (inflight s) as [c|] eqn:Hc; [right|by left].
    pose proof (inflight_loading s c Hr Hc) as Hl.
    destruct (@generateResponse _ _ _ _) as [reply|err] eqn:Hg; unfold abstract; cbn [messages isLoading].
    + rewrite fmap_app. apply conv_reply; [done|].
      exact (@generateResponse_truthy (fun _ => o) _ _ _ _ Hg).
    + by apply conv_fail.
Qed.

Lemma step_refines_witness :
  reachable first_turn /\
  (abstract (step first_turn (Settle (Err QuotaError) 1)) = abstract first_turn \/
   conv_step (abstract first_turn) (abstract (step first_turn (Settle (Err QuotaError) 1)))).
Proof.
  assert (reachable first_turn) as Hr by (apply reach_step, reach_init).
  split; [exact Hr | exact (step_refines first_turn _ Hr)].
Defined.

(** Progress: from every reachable state, once the call in flight
    settles (whatever its outcome) the controller is idle, and a non-blank
    submission is then accepted and appended at once. *)
Theorem settle_then_accept s o now0 p now :
  reachable s -> blank p = false ->
  let s' := step s (Settle o now0) in
  isLoading s' = false /\
  messages (step s' (Submit p now)) =
  messages s' ++ [Message.mk (pretty (nextId s')) user (UserParams.text p)
                    (ImageData.preview <$> UserParams.image p) now].
Proof.
  intros Hr Hb s'.
  assert (isLoading s' = false) as Hl.
  { subst s'. simpl. unfold settle. destruct (inflight s) as [c|] eqn:Hc.
    - by destruct (@generateResponse _ _ _ _).
    - destruct (isLoading s) eqn:Hl; [|done].
      destruct (loading_inflight s Hr Hl) as [c Hc']. congruence. }
  split; [exact Hl|]. simpl. unfold submit. by rewrite Hl, Hb.
Qed.

Lemma settle_then_accept_witness :
  reachable first_turn /\ blank (UserParams.mk "next" None) = false /\
  let s' := step first_turn (Settle (Err NetworkError) 1) in
  isLoading s' = false /\
  messages (step s' (Submit (UserParams.mk "next" None) 2)) =
  messages s' ++ [Message.mk (pretty (nextId s')) user "next" None 2].
Proof.
  assert (reachable first_turn) as Hr by (apply reach_step, reach_init).
  assert (blank (UserParams.mk "next" None) = false) as Hb by reflexivity.
  split_and!; [exact Hr | exact Hb | exact (settle_then_accept first_turn _ 1 _ 2 Hr Hb)].
Defined.

End App.
