(* ===== verification/System.v ===== *)
(** * The input area and the controller together

    [Submitter] is the interface between the two: what a user-interface
    component promises the controller about the [UserParams] it hands to
    [onSend].  The composed system is proved against the interface; the
    input area of [src/components/InputArea.tsx] is an instance, its
    laws discharged by the theorems of [InputArea]. *)

From stdpp Require Import pretty.
From S2P Require Import Prelude JsString Types DataUrl Gemini InputArea App.

(** A component driven by the [isLoading] flag that emits submissions. *)
Class Submitter (S E : Type) := {
  ui_step : bool -> S -> E -> S * list UserParams.t;
  ui_ok : S -> Prop;
  ui_sent_ok : UserParams.t -> Prop;
  ui_ok_step l s e : ui_ok s -> ui_ok (ui_step l s e).1;
  ui_sent l s e p : ui_ok s -> p ∈ (ui_step l s e).2 -> l = false /\ App.blank p = false /\ ui_sent_ok p;
  ui_sent_single l s e p : p ∈ (ui_step l s e).2 -> (ui_step l s e).2 = [p]
}.

Module System.

Section WithSubmitter.
Context {S E : Type} `{Submitter S E}.

Record Sys := mkSys { ui : S; app : App.State }.

Inductive SysEvent :=
  | UI (e : E) (now : Z)
  | Net (o : result Gemini.ApiError Gemini.GenerateContentResponse) (now : Z).

(** The submissions of one UI step reach the controller in order. *)
Definition deliver (a : App.State) (ps : list UserParams.t) (now : Z) : App.State :=
  foldl (fun a p => App.submit a p now) a ps.

Definition sys_step (s : Sys) (ev : SysEvent) : Sys :=
  match ev with
  | UI e now =>
      let '(u, ps) := ui_step (App.isLoading (app s)) (ui s) e in
      mkSys u (deliver (app s) ps now)
  | Net o now => mkSys (ui s) (App.settle (app s) o now)
  end.

Inductive sys_reachable (u0 : S) : Sys -> Prop :=
  | sys_init : sys_reachable u0 (mkSys u0 App.init)
  | sys_next s ev : sys_reachable u0 s -> sys_reachable u0 (sys_step s ev).

(** A user message of the store came from a submission the component
    vouched for. *)
Definition user_msg_ok (m : Message.t) : Prop :=
  Message.role m = user ->
  exists p, ui_sent_ok p /\ Message.text m = UserParams.text p /\
            Message.image m = ImageData.preview <$> UserParams.image p.

Definition sys_inv (s : Sys) : Prop :=
  ui_ok (ui s) /\ App.reachable (app s) /\ Forall user_msg_ok (App.messages (app s)).

Lemma submit_accepted a p now :
  App.isLoading a = false -> App.blank p = false ->
  App.messages (App.submit a p now) =
  App.messages a ++ [Message.mk (pretty (App.nextId a)) user (UserParams.text p)
                       (ImageData.preview <$> UserParams.image p) now].
Proof. intros Hl Hb. unfold App.submit. by rewrite Hl, Hb. Qed.

Lemma submit_user_msg_ok a p now :
  ui_sent_ok p -> Forall user_msg_ok (App.messages a) ->
  Forall user_msg_ok (App.messages (App.submit a p now)).
Proof.
  intros Hp Ha. unfold App.submit. destruct (_ || _); [done|]. cbn [App.messages].
  apply Forall_app. split; [done|]. constructor; [|constructor]. intros _. eauto.
Qed.

Lemma settle_user_msg_ok a o now :
  Forall user_msg_ok (App.messages a) -> Forall user_msg_ok (App.messages (App.settle a o now)).
Proof.
  intros Ha. unfold App.settle. destruct (App.inflight a); [|done].
  destruct (@Gemini.generateResponse _ _ _ _); cbn [App.messages]; [|done].
  apply Forall_app. split; [done|]. constructor; [|constructor]. by intros ?.
Qed.

Lemma deliver_reachable a ps now : App.reachable a -> App.reachable (deliver a ps now).
Proof.
  revert a. induction ps as [|p ps IH]; intros a Ha; [done|]. simpl. apply IH.
  exact (App.reach_step a (App.Submit p now) Ha).
Qed.

Lemma deliver_user_msg_ok a ps now :
  (forall p, p ∈ ps -> ui_sent_ok p) -> Forall user_msg_ok (App.messages a) ->
  Forall user_msg_ok (App.messages (deliver a ps now)).
Proof.
  revert a. induction ps as [|p ps IH]; intros a Hps Ha; [done|]. simpl.
  apply IH; [set_solver|]. apply submit_user_msg_ok; [|done]. apply Hps. set_solver.
Qed.

Lemma sys_inv_step s ev : sys_inv s -> sys_inv (sys_step s ev).
Proof.
  intros (Hu & Ha & Hm). destruct ev as [e now|o now]; simpl.
  - pose proof (ui_ok_step (App.isLoading (app s)) (ui s) e Hu) as Hu'.
    pose proof (fun p => ui_sent (App.isLoading (app s)) (ui s) e p Hu) as Hs.
    destruct (ui_step _ _ _) as [u ps]. split_and!; simpl.
    + exact Hu'.
    + by apply deliver_reachable.
    + apply deliver_user_msg_ok; [|done]. intros p Hp. apply (Hs p Hp).
  - split_and!; simpl; [done | by apply (App.reach_step _ (App.Settle o now)) | by apply settle_user_msg_ok].
Qed.

Lemma sys_inv_reachable u0 s : ui_ok u0 -> sys_reachable u0 s -> sys_inv s.
Proof.
  intros H0. induction 1 as [|s ev _ IH]; [|by apply sys_inv_step].
  split_and!; [done | constructor | constructor].
Qed.

(** In the composed system, started from a component state that
    satisfies the component's invariant, the invariant holds forever, the
    controller's state is one of its reachable states, and every user
    message of the store is a submission the component vouched for. *)
Theorem sys_reachable_inv u0 s : ui_ok u0 -> sys_reachable u0 s -> sys_inv s.
Proof. apply sys_inv_reachable. Qed.

(** The controller never refuses a submission of the component: the
    component only submits while the controller is idle, and never a blank
    turn, so each submission appends its user message at once. *)
Theorem submission_never_refused u0 s e p now :
  ui_ok u0 -> sys_reachable u0 s ->
  p ∈ (ui_step (App.isLoading (app s)) (ui s) e).2 ->
  App.messages (app (sys_step s (UI e now))) =
  App.messages (app s) ++ [Message.mk (pretty (App.nextId (app s))) user (UserParams.text p)
                             (ImageData.preview <$> UserParams.image p) now].
Proof.
  intros H0 Hr Hp. destruct (sys_inv_reachable u0 s H0 Hr) as (Hu & _ & _).
  destruct (ui_sent _ _ _ _ Hu Hp) as (Hl & Hb & _).
  pose proof (ui_sent_single _ _ _ _ Hp) as Hsingle. simpl.
  destruct (ui_step _ _ _) as [u ps]. simpl in Hsingle. subst ps. simpl.
  by apply submit_accepted.
Qed.

End WithSubmitter.
End System.

(** ** The two guards agree *)

Lemma blank_send_blocked s :
  App.blank (UserParams.mk (InputArea.text s) (InputArea.selectedImage s)) =
  InputArea.send_blocked false s.
Proof. unfold App.blank, InputArea.send_blocked. cbn [UserParams.text UserParams.image]. by rewrite orb_false_r. Qed.

(** C25: The guard of [handleSend] when idle and the controller's guard
    on the parameters it would send are the same test: a submission is
    blocked by the input area exactly when the controller would refuse it
    as blank. *)
Theorem guards_agree s :
  App.blank (UserParams.mk (InputArea.text s) (InputArea.selectedImage s)) =
  InputArea.send_blocked false s.
Proof. apply blank_send_blocked. Qed.

(** ** The input area is a [Submitter] *)

Module InputAreaSubmitter.
Import InputArea FileReader.

Definition sends (effs : list Effect) : list UserParams.t :=
  omap (fun eff => match eff with OnSend p => Some p | _ => None end) effs.

Lemma elem_of_sends p effs : p ∈ sends effs <-> OnSend p ∈ effs.
Proof.
  unfold sends. rewrite list_elem_of_omap. split.
  - intros ([] & ? & ?); simplify_eq; done.
  - intros ?. by eexists.
Qed.

Definition ia_step (l : bool) (s : State) (e : Event) : State * list UserParams.t :=
  ((step l s e).1, sends (step l s e).2).

Lemma sent_ok_not_blank p : InputArea.sent_ok p -> App.blank p = false.
Proof.
  intros [[Ht|Hi] _]; unfold App.blank; [by rewrite Ht|].
  rewrite bool_decide_eq_false_2 by done. by rewrite andb_false_r.
Qed.

#[export] Program Instance input_area_submitter : Submitter State Event := {|
  ui_step := ia_step;
  ui_ok := wf;
  ui_sent_ok := InputArea.sent_ok
|}.
Next Obligation. intros l s e. apply step_preserves_wf. Qed.
Next Obligation.
  intros l s e p Hs Hp. apply elem_of_sends in Hp.
  destruct (step_sent l s e p Hs Hp) as [-> Hok].
  split_and!; [done | by apply sent_ok_not_blank | done].
Qed.
Next Obligation.
  intros l s e p Hp. apply elem_of_sends in Hp. simpl.
  by rewrite (step_sent_only l s e p Hp).
Qed.

(** C7: Every image of a user message in the store of the running
    application is the data URL of a picked file of an image type, and,
    when that type is plain, [formatHistory] replays it with the file's
    own type and base64 payload. *)
Theorem stored_image_replayed s m u :
  System.sys_reachable init s -> m ∈ App.messages (System.app s) ->
  Message.role m = user -> Message.image m = Some u ->
  exists f, image_file f = true /\ u = FileReader.readAsDataURL f /\
    (Codec.plain_type (FileReader.type f) = true ->
     Codec.inline_of_image u = InlineData.mk (FileReader.type f)
                                 (Some (FileReader.encode (FileReader.contents f)))).
Proof.
  intros Hr Hm Hrole Himg.
  destruct (System.sys_inv_reachable (H := input_area_submitter) init s wf_init Hr) as (_ & _ & Hall).
  destruct (proj1 (Forall_forall _ _) Hall m Hm Hrole) as (p & [_ Hpi] & _ & Hpimg).
  rewrite Himg in Hpimg. destruct (UserParams.image p) as [d|] eqn:Hd; [|done].
  destruct (Hpi d eq_refl) as (f & Hf & ->). injection Hpimg as ->.
  exists f. split_and!; [done|reflexivity|]. intros Ht.
  by apply Codec.inline_of_data_url.
Qed.

(** The user picks a PNG, its read settles, and the user sends it. *)
Definition png_sent : System.Sys :=
  fold_left System.sys_step
    [System.UI (FilePick (Some Codec.png_file)) 0; System.UI (ReadSettled 0 Loaded) 0;
     System.UI SendClick 0]
    (System.mkSys init App.init).

Definition png_message : Message.t :=
  Message.mk "0" user EmptyString (Some (FileReader.readAsDataURL Codec.png_file)) 0.

Lemma png_sent_reachable : System.sys_reachable init png_sent.
Proof. repeat apply System.sys_next. apply System.sys_init. Qed.

Lemma stored_image_replayed_witness :
  System.sys_reachable init png_sent /\ png_message ∈ App.messages (System.app png_sent) /\
  Message.role png_message = user /\
  Message.image png_message = Some (FileReader.readAsDataURL Codec.png_file) /\
  exists f, image_file f = true /\ FileReader.readAsDataURL Codec.png_file = FileReader.readAsDataURL f /\
    (Codec.plain_type (FileReader.type f) = true ->
     Codec.inline_of_image (FileReader.readAsDataURL Codec.png_file) =
     InlineData.mk (FileReader.type f) (Some (FileReader.encode (FileReader.contents f)))).
Proof.
  assert (png_message ∈ App.messages (System.app png_sent)) as Hm
    by (apply (bool_decide_unpack _); vm_compute; reflexivity).
  split_and!; [exact png_sent_reachable | exact Hm | reflexivity | reflexivity |].
  exact (stored_image_replayed png_sent png_message _ png_sent_reachable Hm eq_refl eq_refl).
Defined.

Lemma submission_never_refused_witness :
  ui_ok (set_text init "hi") /\
  System.sys_reachable (set_text init "hi") (System.mkSys (set_text init "hi") App.init) /\
  UserParams.mk "hi" None ∈ (ui_step false (set_text init "hi") SendClick).2 /\
  App.messages (System.app (System.sys_step (System.mkSys (set_text init "hi") App.init) (System.UI SendClick 3))) =
  [] ++ [Message.mk (pretty 0) user "hi" None 3].
Proof.
  assert (ui_ok (set_text init "hi")) as Hu by exact (wf_set_text init "hi" wf_init).
  assert (UserParams.mk "hi" None ∈ (ui_step false (set_text init "hi") SendClick).2) as Hp
    by (apply (bool_decide_unpack _); vm_compute; reflexivity).
  split_and!; [exact Hu | apply System.sys_init | exact Hp |].
  exact (System.submission_never_refused _ (System.mkSys (set_text init "hi") App.init) SendClick _ 3
           Hu (System.sys_init _) Hp).
Defined.

Lemma sys_reachable_inv_witness :
  ui_ok init /\ System.sys_reachable init png_sent /\ System.sys_inv png_sent.
Proof.
  split_and!; [exact wf_init | exact png_sent_reachable |].
  exact (System.sys_reachable_inv init png_sent wf_init png_sent_reachable).
Defined.

Lemma sys_app_reachable s : System.sys_reachable init s -> App.reachable (System.app s).
Proof.
  intros Hr. by destruct (System.sys_inv_reachable (H := input_area_submitter) init s wf_init Hr)
    as (_ & Ha & _).
Qed.

(** C26: Progress of the running application: from every reachable
    state, once the call in flight settles, pressing send on a non-blank
    text appends that text as a user message, with the selected image's
    preview, and clears the composer. *)
Theorem send_after_settle s o now0 now :
  System.sys_reachable init s -> Js.truthy (Js.trim (text (System.ui s))) = true ->
  let s1 := System.sys_step s (System.Net o now0) in
  let s2 := System.sys_step s1 (System.UI SendClick now) in
  App.messages (System.app s2) =
    App.messages (System.app s1) ++
    [Message.mk (pretty (App.nextId (System.app s1))) user (text (System.ui s))
       (ImageData.preview <$> selectedImage (System.ui s)) now] /\
  text (System.ui s2) = EmptyString /\ selectedImage (System.ui s2) = None.
Proof.
  intros Hr Ht s1 s2.
  set (p := UserParams.mk (text (System.ui s)) (selectedImage (System.ui s))).
  assert (App.blank p = false) as Hb by (unfold App.blank; simpl; by rewrite Ht).
  destruct (App.settle_then_accept (System.app s) o now0 p now (sys_app_reachable s Hr) Hb)
    as [Hl Hacc]. cbn [App.step] in Hl, Hacc.
  assert (send_blocked false (System.ui s) = false) as Hs by (unfold send_blocked; by rewrite Ht).
  subst s2 s1. cbn [System.sys_step System.app System.ui] in *.
  unfold ui_step; simpl. unfold ia_step. rewrite Hl. simpl. unfold handleSend. rewrite Hs.
  simpl. split_and!; [exact Hacc | done | done].
Qed.

(** The user has typed a question. *)
Definition typed : System.Sys :=
  System.sys_step (System.mkSys init App.init) (System.UI (TextChange "why?") 0).

Lemma send_after_settle_witness :
  System.sys_reachable init typed /\ Js.truthy (Js.trim (text (System.ui typed))) = true /\
  let s1 := System.sys_step typed (System.Net (Err Gemini.NetworkError) 1) in
  let s2 := System.sys_step s1 (System.UI SendClick 2) in
  App.messages (System.app s2) =
    App.messages (System.app s1) ++
    [Message.mk (pretty (App.nextId (System.app s1))) user (text (System.ui typed))
       (ImageData.preview <$> selectedImage (System.ui typed)) 2] /\
  text (System.ui s2) = EmptyString /\ selectedImage (System.ui s2) = None.
Proof.
  assert (System.sys_reachable init typed) as Hr by (apply System.sys_next, System.sys_init).
  assert (Js.truthy (Js.trim (text (System.ui typed))) = true) as Ht by reflexivity.
  split_and!; [exact Hr | exact Ht | exact (send_after_settle typed _ 1 2 Hr Ht)].
Defined.
End InputAreaSubmitter.
