(* ===== verification/Screen.v ===== *)
(** * The screen of the running application

    [App.tsx] renders the header, one [ChatMessage] bubble per stored
    message, and the input area with its [isLoading] prop set to the
    controller's flag.  [App.tsx] is not among the sources: [screen] is
    modelled from the specification (section 6: the store's snapshot and
    the awaiting flag are what the user interface renders), and records
    only the order of the three regions, with no markup of its own.  The
    regions themselves are the modelled components of [View] and
    [Composer].  The theorems are about the composed system of [System]
    with the input area as its component. *)

From stdpp Require Import pretty.
From S2P Require Import Prelude JsString Types DataUrl Gemini View InputArea Composer App System.

Module Screen.
Import View InputArea System InputAreaSubmitter.

(** App's return value for the composed state [x]. *)
Definition screen (x : @Sys State) : Node :=
  El "div" EmptyString []
    ([header] ++ conversation_view (App.messages (app x)) ++
     [Composer.composer (App.isLoading (app x)) (ui x)]).

(** ** Reading the screen region by region *)

Lemma collect_screen {A} (f : Node -> list A) x :
  f (screen x) = [] ->
  collect f (screen x) =
    collect f header ++ mjoin (collect f ∘ chatMessage <$> App.messages (app x)) ++
    collect f (Composer.composer (App.isLoading (app x)) (ui x)).
Proof.
  intros Hf. unfold screen. rewrite collect_forest by exact Hf.
  unfold conversation_view. rewrite !fmap_app, !join_app, <- list_fmap_compose. simpl.
  by rewrite !app_nil_r.
Qed.

Lemma icons_screen x :
  icons (screen x) =
    ["GraduationCap"; "Sparkles"] ++ (avatar ∘ Message.role <$> App.messages (app x)) ++
    icons (Composer.composer (App.isLoading (app x)) (ui x)).
Proof.
  unfold icons at 1. rewrite collect_screen by done. fold icons.
  by rewrite (mjoin_fmap_singleton _ (avatar ∘ Message.role)) by apply avatar_chatMessage.
Qed.

Lemma markdown_screen x :
  markdown_sources (screen x) = Message.text <$> App.messages (app x).
Proof.
  unfold markdown_sources at 1. rewrite collect_screen by done. fold markdown_sources.
  rewrite (mjoin_fmap_singleton _ Message.text) by apply markdown_chatMessage.
  by rewrite Composer.markdown_composer, app_nil_r.
Qed.

Lemma images_screen x :
  images (screen x) =
    mjoin (images ∘ chatMessage <$> App.messages (app x)) ++
    (ImageData.preview <$> option_list (selectedImage (ui x))).
Proof.
  unfold images at 1. rewrite collect_screen by done. fold images.
  by rewrite Composer.images_composer.
Qed.

Lemma controls_screen x :
  Composer.controls (screen x) = Composer.wired (App.isLoading (app x)) (ui x).
Proof.
  unfold Composer.controls at 1. rewrite collect_screen by done. fold Composer.controls.
  rewrite join_nil_2.
  - cbn [Composer.controls collect header]. by rewrite Composer.controls_composer.
  - apply Forall_fmap, Forall_true. intros m. apply Composer.controls_chatMessage.
Qed.

(** The controller is loading exactly while a request is in flight. *)
Lemma loading_iff_inflight a : App.reachable a -> App.isLoading a = true <-> is_Some (App.inflight a).
Proof.
  intros Ha. split.
  - intros Hl. destruct (App.loading_inflight a Ha Hl) as [c ->]. by eexists.
  - intros [c Hc]. exact (App.inflight_loading a c Ha Hc).
Qed.

(** No bubble shows the spinner. *)
Lemma avatar_not_spinner (ms : list Message.t) : "Loader2" ∉ avatar ∘ Message.role <$> ms.
Proof.
  intros (m & Hm & _)%list_elem_of_fmap. revert Hm. unfold compose, avatar.
  by case_bool_decide.
Qed.

(** C12: On the screen of the running application the spinner is shown
    exactly while a request is in flight, and while it is, the only
    enabled controls are the remove-image button and the hidden file
    input: the upload button, the textarea and the send button are all
    disabled. *)
Theorem loading_screen x :
  sys_reachable init x ->
  ("Loader2" ∈ icons (screen x) <-> is_Some (App.inflight (app x))) /\
  (is_Some (App.inflight (app x)) ->
   forall h, (h, false) ∈ Composer.controls (screen x) -> h = "clearImage" \/ h = "handleFileChange").
Proof.
  intros Hr. rewrite icons_screen, controls_screen, Composer.icons_composer.
  rewrite <- (loading_iff_inflight _ (sys_app_reachable x Hr)).
  pose proof (avatar_not_spinner (App.messages (app x))) as Hav.
  unfold Composer.wired. destruct (App.isLoading (app x)).
  - rewrite Composer.send_blocked_loading. split; [set_solver|].
    intros _ h. destruct (selectedImage (ui x)); set_solver.
  - split; [|done]. split; [|done]. destruct (selectedImage (ui x)); set_solver.
Qed.

(** A send that [handleSend] lets through, in the composed system: the
    composer is cleared and the controller receives the composed turn. *)
Lemma sys_step_send x now :
  App.isLoading (app x) = false -> send_blocked false (ui x) = false ->
  sys_step x (UI SendClick now) =
  mkSys (set_image (set_text (ui x) EmptyString) None)
        (App.submit (app x) (UserParams.mk (text (ui x)) (selectedImage (ui x))) now).
Proof.
  intros Hl Hb. cbn [sys_step]. unfold ui_step; simpl. unfold ia_step.
  rewrite Hl. cbn [step]. unfold handleSend. by rewrite Hb.
Qed.

(** The image a bubble shows for an attachment of the composer: its
    preview, which is a data URL and so never blank. *)
Lemma bubble_images_attachment i r t d now :
  (exists f, d = image_of_file f) ->
  images (chatMessage (Message.mk i r t (Some (ImageData.preview d)) now)) = [ImageData.preview d].
Proof.
  intros [f ->]. rewrite images_imageNodes.
  cbn [Message.image image_of_file Codec.image_of_url ImageData.preview].
  by rewrite FileReader.readAsDataURL_truthy.
Qed.

(** C22: In the running application, a send that the composer lets
    through shows the user's turn at once: the screen gains exactly one
    markdown source, the text just typed, at the end of the conversation;
    the attached image moves from the composer's preview to the new
    bubble, so the screen's images are the same, in the same order; the
    spinner appears; and the composer is cleared. *)
Theorem send_shows_turn x now :
  sys_reachable init x -> App.isLoading (app x) = false -> send_blocked false (ui x) = false ->
  let x' := sys_step x (UI SendClick now) in
  markdown_sources (screen x') = markdown_sources (screen x) ++ [text (ui x)] /\
  images (screen x') = images (screen x) /\
  "Loader2" ∈ icons (screen x') /\
  text (ui x') = EmptyString /\ selectedImage (ui x') = None.
Proof.
  intros Hr Hl Hb x'. subst x'. rewrite sys_step_send by done.
  assert (App.blank (UserParams.mk (text (ui x)) (selectedImage (ui x))) = false) as Hbl
    by (rewrite blank_send_blocked; exact Hb).
  destruct (sys_inv_reachable (H := input_area_submitter) init x wf_init Hr) as ([Hi _] & _ & _).
  rewrite !markdown_screen, !images_screen, icons_screen, Composer.icons_composer. cbn [app ui].
  rewrite (submit_accepted _ _ _ Hl Hbl).
  assert (App.isLoading (App.submit (app x) (UserParams.mk (text (ui x)) (selectedImage (ui x))) now) = true)
    as -> by (unfold App.submit; by rewrite Hl, Hbl).
  cbn [selectedImage text set_image set_text]. rewrite !fmap_app, join_app.
  split_and!; [done| |set_solver|done|done].
  cbn [fmap list_fmap mjoin list_join compose UserParams.image]. rewrite app_nil_r.
  f_equal. destruct (selectedImage (ui x)) as [d|]; cbn [fmap option_fmap option_map option_list].
  - destruct (Hi d eq_refl) as (f & _ & ->). rewrite app_nil_r. apply bubble_images_attachment. by exists f.
  - by rewrite images_imageNodes.
Qed.

(** The controller's state after the call in flight returns [r]. *)
Lemma settle_ok a c r now :
  App.inflight a = Some c ->
  App.settle a (Ok r) now =
  App.mkState (App.messages a ++ [Message.mk (pretty (App.nextId a)) Types.model (Gemini.replyText r) None now])
    false None None (S (App.nextId a)).
Proof. intros Hc. unfold App.settle. by rewrite Hc. Qed.

(** C29: In the running application, when the call in flight returns,
    the reply appears at once as a new bubble at the end of the
    conversation, with the bot avatar and the reply text, which is never
    blank (the apology replaces a response without text); the spinner is
    gone, the send button shows its icon again, and the composer keeps
    what the user typed meanwhile. *)
Theorem settle_shows_reply x r now :
  sys_reachable init x -> is_Some (App.inflight (app x)) ->
  let x' := sys_step x (Net (Ok r) now) in
  markdown_sources (screen x') = markdown_sources (screen x) ++ [Gemini.replyText r] /\
  Js.truthy (Gemini.replyText r) = true /\
  icons (screen x') =
    ["GraduationCap"; "Sparkles"] ++ (avatar ∘ Message.role <$> App.messages (app x)) ++
    "Bot" :: icons (Composer.composer false (ui x)) /\
  "Loader2" ∉ icons (screen x') /\ ui x' = ui x.
Proof.
  intros Hr [c Hc] x'. subst x'. rewrite !markdown_screen, icons_screen. cbn [sys_step app ui].
  rewrite (settle_ok _ _ _ _ Hc). cbn [App.messages App.isLoading]. rewrite !fmap_app.
  pose proof (avatar_not_spinner (App.messages (app x))) as Hav.
  assert (avatar ∘ Message.role <$> [Message.mk (pretty (App.nextId (app x))) Types.model
            (Gemini.replyText r) None now] = ["Bot"]) as ->
    by (cbn; unfold avatar; by rewrite bool_decide_eq_true_2).
  rewrite <- app_assoc. split_and!; [done | apply Gemini.replyText_truthy | done | | done].
  rewrite Composer.icons_composer. destruct (selectedImage (ui x)); set_solver.
Qed.

Lemma settle_shows_reply_witness :
  sys_reachable init png_sent /\ is_Some (App.inflight (app png_sent)) /\
  markdown_sources (screen (sys_step png_sent (Net (Ok (Gemini.mkResponse (Some "What do you notice?"))) 1))) =
    markdown_sources (screen png_sent) ++ ["What do you notice?"] /\
  "Loader2" ∉ icons (screen (sys_step png_sent (Net (Ok (Gemini.mkResponse None)) 1))).
Proof.
  assert (is_Some (App.inflight (app png_sent))) as Hf
    by (apply (bool_decide_unpack _); vm_compute; reflexivity).
  split_and!; [exact png_sent_reachable | exact Hf | |].
  - exact (proj1 (settle_shows_reply png_sent (Gemini.mkResponse (Some "What do you notice?")) 1
                    png_sent_reachable Hf)).
  - exact (proj1 (proj2 (proj2 (proj2 (settle_shows_reply png_sent (Gemini.mkResponse None) 1
                    png_sent_reachable Hf))))).
Defined.

Lemma loading_screen_witness :
  sys_reachable init png_sent /\ is_Some (App.inflight (app png_sent)) /\
  "Loader2" ∈ icons (screen png_sent) /\
  ("handleSend", false) ∉ Composer.controls (screen png_sent).
Proof.
  assert (is_Some (App.inflight (app png_sent))) as Hf
    by (apply (bool_decide_unpack _); vm_compute; reflexivity).
  destruct (loading_screen png_sent png_sent_reachable) as [Hi Hc].
  split_and!; [exact png_sent_reachable | exact Hf | exact (proj2 Hi Hf) |].
  intros Hs. destruct (Hc Hf _ Hs) as [H|H]; discriminate H.
Defined.

Lemma send_shows_turn_witness :
  sys_reachable init typed /\ App.isLoading (app typed) = false /\
  send_blocked false (ui typed) = false /\
  markdown_sources (screen (sys_step typed (UI SendClick 1))) =
    markdown_sources (screen typed) ++ ["why?"] /\
  "Loader2" ∈ icons (screen (sys_step typed (UI SendClick 1))).
Proof.
  assert (sys_reachable init typed) as Hr by (apply sys_next, sys_init).
  destruct (send_shows_turn typed 1 Hr eq_refl eq_refl) as (Hm & _ & Hs & _).
  split_and!; [exact Hr | reflexivity | reflexivity | exact Hm | exact Hs].
Defined.

End Screen.
